(** * ReachCubeEnv: the reach-a-cube task of gym-lowcostrobot

    A shallow embedding of [gym_lowcostrobot/envs/reach_cube_env.py] and the
    properties its specification states about [reset], [step] and
    [get_observation].

    Conventions of the embedding.
    - Numbers.  numpy's float arrays are lists of real numbers: IEEE
      arithmetic is idealised as exact arithmetic on [R], a dtype cast is
      value preserving, and rounding error, infinities and NaN are outside
      the model.
    - Effects.  A method of the environment mutates [self] and may raise:
      it is a computation in a state-and-exception monad over the record of
      the object's attributes, and a raise keeps the mutations made so far.
    - Collaborators.  The physics engine (MuJoCo), the random bit generator
      and the few facts of the scene file the code relies on are parameters,
      bundled in records; what is assumed of them is stated as a law next to
      the record.  The helpers the class inherits from [BaseRobotEnv], whose
      file is not part of the sources, are modelled from the specification
      and marked as such. *)

From Stdlib Require Import String.
From Stdlib Require Import Reals Lra Lia List Bool Arith NArith.
Import ListNotations.

Set Implicit Arguments.

Local Open Scope R_scope.

(** ** Exceptions and the state-and-exception monad *)

Inductive exn : Type :=
| KeyError (name : string)
| ValueError (msg : string).

Inductive result (A : Type) : Type :=
| Ok (a : A)
| Raise (e : exn).

Arguments Ok {A} a.
Arguments Raise {A} e.

Definition result_bind {A B : Type} (r : result A) (k : A -> result B) : result B :=
  match r with
  | Ok a => k a
  | Raise e => Raise e
  end.

(** A method of an object whose attributes are a value of type [S]. *)
Definition M (S A : Type) : Type := S -> result A * S.

Definition ret {S A : Type} (a : A) : M S A := fun s => (Ok a, s).

Definition bind {S A B : Type} (m : M S A) (k : A -> M S B) : M S B :=
  fun s =>
    match m s with
    | (Ok a, s') => k a s'
    | (Raise e, s') => (Raise e, s')
    end.

Definition lift {S A : Type} (r : result A) : M S A := fun s => (r, s).

Definition gets {S A : Type} (f : S -> A) : M S A := fun s => (Ok (f s), s).

Definition modify {S : Type} (f : S -> S) : M S unit := fun s => (Ok tt, f s).

Declare Scope method_scope.
Delimit Scope method_scope with method.

Notation "x <- m ;; k" := (bind m (fun x => k))
  (at level 61, m at next level, right associativity) : method_scope.
Notation "m ;; k" := (bind m (fun _ => k))
  (at level 61, right associativity) : method_scope.

(** ** The fragment of numpy the environment uses *)

Module np.

(** One-dimensional float arrays. *)
Definition ndarray : Type := list R.

(** [a[i:j]]: a slice is clamped to the array, never an error. *)
Definition getslice (a : ndarray) (i j : nat) : ndarray :=
  firstn (j - i) (skipn i a).

(** Broadcasting of two one-dimensional operands: equal lengths pair up
    element by element, a length-one operand is repeated, anything else is
    numpy's "operands could not be broadcast together". *)
Definition broadcast2 (a b : ndarray) : result (list (R * R)) :=
  if Nat.eqb (length a) (length b) then Ok (combine a b)
  else match a, b with
       | [x], _ => Ok (map (fun y => (x, y)) b)
       | _, [y] => Ok (map (fun x => (x, y)) a)
       | _, _ => Raise (ValueError "operands could not be broadcast together")
       end.

(** [a - b]. *)
Definition subtract (a b : ndarray) : result ndarray :=
  result_bind (broadcast2 a b)
              (fun ps => Ok (map (fun p => fst p - snd p) ps)).

(** [a[i:j] = v]: the value fills the slice when it has the slice's length
    or has length one. *)
Definition setslice (a : ndarray) (i j : nat) (v : ndarray) : result ndarray :=
  let n := length (getslice a i j) in
  if Nat.eqb (length v) n then Ok (firstn i a ++ v ++ skipn (i + n) a)
  else match v with
       | [x] => Ok (firstn i a ++ repeat x n ++ skipn (i + n) a)
       | _ => Raise (ValueError "could not broadcast input array")
       end.

Definition concatenate (parts : list ndarray) : ndarray := concat parts.

(** [np.linalg.norm] of a vector: the square root of the sum of squares. *)
Definition sum_squares (a : ndarray) : R :=
  fold_right (fun x s => x * x + s) 0 a.

Definition linalg_norm (a : ndarray) : R := sqrt (sum_squares a).

(** [np.clip(a, lo, hi)]. *)
Definition clip (a : ndarray) (lo hi : R) : ndarray :=
  map (fun x => Rmin (Rmax x lo) hi) a.

(** [a.astype(np.float32)]: value preserving on idealised numbers. *)
Definition astype_float32 (a : ndarray) : ndarray := a.

End np.

(** Comparison of two floats as Python evaluates [x < y]. *)
Definition Rltb (x y : R) : bool := if Rlt_dec x y then true else false.

(** ** The random source

    [self.np_random] is a numpy [Generator]; gymnasium's [Env.reset(seed=s)]
    replaces it with a generator seeded by [s].  The bit generator itself
    is a collaborator: its states, how a seed makes one, and the stream of
    doubles it yields. *)

Record BitGenerator : Type := {
  bitgen : Type;
  (** the lazily created, entropy-seeded generator of a fresh environment *)
  os_entropy : bitgen;
  (** [seeding.np_random(seed)] *)
  seed_bitgen : N -> bitgen;
  (** [Generator.random()]: the next double and the advanced state *)
  next_double : bitgen -> R * bitgen
}.

(** The contract of [Generator.random()]: doubles of the half-open unit
    interval. *)
Definition unit_doubles (G : BitGenerator) : Prop :=
  forall g : bitgen G, 0 <= fst (next_double G g) < 1.

Module Generator.

(** One draw per pair of bounds, in element order:
    [low + (high - low) * random()]. *)
Fixpoint sample (G : BitGenerator) (bounds : list (R * R)) (g : bitgen G)
  : np.ndarray * bitgen G :=
  match bounds with
  | [] => ([], g)
  | (lo, hi) :: rest =>
      let (u, g1) := next_double G g in
      let (xs, g2) := sample G rest g1 in
      ((lo + (hi - lo) * u) :: xs, g2)
  end.

(** [Generator.uniform(low, high)] on array bounds. *)
Definition uniform (G : BitGenerator) (low high : np.ndarray) (g : bitgen G)
  : result (np.ndarray * bitgen G) :=
  result_bind (np.broadcast2 low high) (fun bounds => Ok (sample G bounds g)).

(** The first [n] doubles of the stream that starts in state [g]. *)
Fixpoint doubles (G : BitGenerator) (n : nat) (g : bitgen G) : list R :=
  match n with
  | O => []
  | S n' => let (u, g1) := next_double G g in u :: doubles G n' g1
  end.

End Generator.

(** ** The physics engine *)

Module mujoco.

Inductive mjtJoint : Type := mjJNT_FREE | mjJNT_BALL | mjJNT_SLIDE | mjJNT_HINGE.

(** Number of position coordinates of a joint. *)
Definition nq_of (t : mjtJoint) : nat :=
  match t with
  | mjJNT_FREE => 7
  | mjJNT_BALL => 4
  | mjJNT_SLIDE => 1
  | mjJNT_HINGE => 1
  end.

Record Joint : Type := {
  jnt_name : string;
  jnt_type : mjtJoint;
  jnt_qposadr : nat
}.

(** The part of a compiled scene the environment looks at. *)
Record MjModel : Type := {
  jnt : list Joint
}.

(** The simulation state: generalised positions and velocities, actuator
    inputs, simulated time, and the Cartesian quantities the engine
    derives from them. *)
Record MjData : Type := {
  qpos : np.ndarray;
  qvel : np.ndarray;
  ctrl : np.ndarray;
  time : R;
  xpos : np.ndarray
}.

Definition set_qpos (d : MjData) (q : np.ndarray) : MjData :=
  {| qpos := q; qvel := qvel d; ctrl := ctrl d; time := time d; xpos := xpos d |}.

Definition set_ctrl (d : MjData) (c : np.ndarray) : MjData :=
  {| qpos := qpos d; qvel := qvel d; ctrl := c; time := time d; xpos := xpos d |}.

(** [data.joint(name).qpos]: the view of [qpos] that belongs to the named
    joint; an unknown name is a [KeyError]. *)
Definition joint_qpos (m : MjModel) (d : MjData) (name : string) : result np.ndarray :=
  match find (fun j => String.eqb (jnt_name j) name) (jnt m) with
  | Some j => Ok (np.getslice (qpos d) (jnt_qposadr j) (jnt_qposadr j + nq_of (jnt_type j)))
  | None => Raise (KeyError name)
  end.

Definition Image : Type := list (list (list R)).

(** What the environment calls in the engine. *)
Record Simulator : Type := {
  from_xml_path : string -> MjModel;
  make_data : MjModel -> MjData;
  mj_forward : MjModel -> MjData -> MjData;
  mj_step : MjModel -> MjData -> MjData;
  render : MjModel -> MjData -> string -> Image
}.

(** The contract of the forward pass: it recomputes derived quantities
    and leaves positions, velocities and time as they are (there is no
    time integration in it). *)
Record forward_is_kinematic (sim : Simulator) : Prop := {
  forward_qpos : forall m d, qpos (mj_forward sim m d) = qpos d;
  forward_qvel : forall m d, qvel (mj_forward sim m d) = qvel d;
  forward_time : forall m d, time (mj_forward sim m d) = time d
}.

End mujoco.

Import mujoco.

(** ** Spaces *)

Inductive ActionMode : Type := joint | ee.

(** [gym.spaces.Box(low, high, shape)] with scalar bounds. *)
Record Box : Type := {
  low : R;
  high : R;
  shape : list nat
}.

Definition in_box (b : Box) (a : np.ndarray) : Prop :=
  Forall (fun x => low b <= x <= high b) a.

(** ** What [BaseRobotEnv] leaves open

    [base_env.py] is not among the sources, and the specification does not
    fix these of its members: they are parameters. *)

Record BaseRobotEnvParams : Type := {
  ASSETS_PATH : string;
  Info : Type;
  (** [self.get_info()] *)
  get_info : MjModel -> MjData -> Info;
  (** the bounds [self.set_object_range(obj_xy_range)] stores in
      [object_low] and [object_high] *)
  set_object_range : R -> np.ndarray * np.ndarray;
  (** the fixed number of physics sub-steps of one environment step *)
  n_substeps : nat;
  (** the joint targets that bring the end effector to a position *)
  inverse_kinematics : MjModel -> MjData -> np.ndarray -> np.ndarray
}.

Definition Options : Type := list (string * string).

(** ** The environment *)

Section Environment.

Variable G : BitGenerator.
Variable sim : Simulator.
Variable base : BaseRobotEnvParams.

(** The attributes of a [ReachCubeEnv] object. *)
Record ReachCubeEnv : Type := {
  model : MjModel;
  data : MjData;
  np_random : bitgen G;
  image_state : option string;
  action_mode : ActionMode;
  render_mode : option string;
  action_space : Box;
  observation_space : list (string * Box);
  threshold_distance : R;
  object_low : np.ndarray;
  object_high : np.ndarray
}.

Definition set_data (self : ReachCubeEnv) (d : MjData) : ReachCubeEnv :=
  {| model := model self; data := d; np_random := np_random self;
     image_state := image_state self; action_mode := action_mode self;
     render_mode := render_mode self; action_space := action_space self;
     observation_space := observation_space self;
     threshold_distance := threshold_distance self;
     object_low := object_low self; object_high := object_high self |}.

Definition set_np_random (self : ReachCubeEnv) (g : bitgen G) : ReachCubeEnv :=
  {| model := model self; data := data self; np_random := g;
     image_state := image_state self; action_mode := action_mode self;
     render_mode := render_mode self; action_space := action_space self;
     observation_space := observation_space self;
     threshold_distance := threshold_distance self;
     object_low := object_low self; object_high := object_high self |}.

(** The observation bundle, keyed as the declared observation space. *)
Record Observation : Type := {
  image_front : option Image;
  image_top : option Image;
  arm_qpos : np.ndarray;
  arm_qvel : np.ndarray;
  object_qpos : np.ndarray;
  object_qvel : np.ndarray
}.

(** *** Inherited from [BaseRobotEnv] *)

(** Modelled from the spec: [set_action_space_without_gripper] of
    [BaseRobotEnv] is missing; the class documents the action space as a
    box of bounds -1.0 and 1.0, 5-dimensional in the joint mode and
    3-dimensional in the ee mode. *)
Definition set_action_space_without_gripper (mode : ActionMode) : Box :=
  {| low := -1; high := 1;
     shape := [match mode with joint => 5%nat | ee => 3%nat end] |}.

(** Modelled from the spec: [BaseRobotEnv.reset] (gymnasium's [Env.reset]
    behind it) is missing; it "reseeds a random source", and the source
    calls it "to seed self.np_random".  Without a seed the generator is
    kept. *)
Definition super_reset (seed : option N) (options : option Options)
  : M ReachCubeEnv unit :=
  modify (fun self =>
            match seed with
            | Some s => set_np_random self (seed_bitgen G s)
            | None => self
            end).

(** Modelled from the spec: [get_observation_dict_one_object] of
    [BaseRobotEnv] is missing; the observation is "a structured bundle of
    camera images (optional) plus arm joint positions/velocities and
    target-object position/velocity" of the simulator state.  The arm owns
    the first six coordinates and the object the next ones, as [reset]
    writes them. *)
Definition get_observation_dict_one_object : M ReachCubeEnv Observation :=
  gets (fun self =>
          let d := data self in
          let camera name :=
            match image_state self with
            | Some _ => Some (render sim (model self) d name)
            | None => None
            end in
          {| image_front := camera "image_front"%string;
             image_top := camera "image_top"%string;
             arm_qpos := np.getslice (qpos d) 0 6;
             arm_qvel := np.getslice (qvel d) 0 6;
             object_qpos := np.getslice (qpos d) 6 9;
             object_qvel := np.getslice (qvel d) 6 9 |}).

(** Modelled from the spec: the actuation inputs that
    [base_step_action_nograsp] forwards are the action "clipped/scaled per
    configured action mode": clipped to the declared bounds, and taken as
    joint targets or turned into them. *)
Definition actuation (self : ReachCubeEnv) (action : np.ndarray) : np.ndarray :=
  let clipped := np.clip action (low (action_space self)) (high (action_space self)) in
  match action_mode self with
  | joint => clipped
  | ee => inverse_kinematics base (model self) (data self) clipped
  end.

(** Modelled from the spec: [base_step_action_nograsp] of [BaseRobotEnv] is
    missing; it "forwards the action to the simulator's actuation inputs
    (clipped/scaled per configured action mode)" and "advances simulation
    time by a fixed number of physics sub-steps". *)
Definition base_step_action_nograsp (action : np.ndarray) : M ReachCubeEnv unit :=
  modify (fun self =>
            let d := set_ctrl (data self) (actuation self action) in
            set_data self (Nat.iter (n_substeps base) (mj_step sim (model self)) d)).

(** *** [reach_cube_env.py] *)

Definition scene_xml : string :=
  (ASSETS_PATH base ++ "/scene_one_cube.xml")%string.

(** The declared observation space. *)
Definition spaces : list (string * Box) :=
  [ ("image_front"%string, {| low := - PI; high := PI; shape := [240; 320; 3]%nat |});
    ("image_top"%string, {| low := - PI; high := PI; shape := [240; 320; 3]%nat |});
    ("arm_qpos"%string, {| low := - PI; high := PI; shape := [6%nat] |});
    ("arm_qvel"%string, {| low := -10; high := 10; shape := [6%nat] |});
    ("object_qpos"%string, {| low := -10; high := 10; shape := [3%nat] |});
    ("object_qvel"%string, {| low := -10; high := 10; shape := [3%nat] |}) ].

(** [ReachCubeEnv.__init__]: the base constructor loads the scene and keeps
    the options; then the spaces, the threshold and the object range. *)
Definition __init__ (image_state : option string) (action_mode : ActionMode)
           (render_mode : option string) (obj_xy_range : R) : ReachCubeEnv :=
  let m := from_xml_path sim scene_xml in
  {| model := m;
     data := make_data sim m;
     np_random := os_entropy G;
     image_state := image_state;
     action_mode := action_mode;
     render_mode := render_mode;
     action_space := set_action_space_without_gripper action_mode;
     observation_space := spaces;
     threshold_distance := 0.01;
     object_low := fst (set_object_range base obj_xy_range);
     object_high := snd (set_object_range base obj_xy_range) |}.

(** [self.data.qpos[i:j] = v] *)
Definition assign_qpos (i j : nat) (v : np.ndarray) : M ReachCubeEnv unit :=
  fun self =>
    match np.setslice (qpos (data self)) i j v with
    | Ok q => (Ok tt, set_data self (set_qpos (data self) q))
    | Raise e => (Raise e, self)
    end.

(** [self.np_random.uniform(low, high)]: the generator advances. *)
Definition np_random_uniform (lo hi : np.ndarray) : M ReachCubeEnv np.ndarray :=
  fun self =>
    match Generator.uniform G lo hi (np_random self) with
    | Ok (xs, g) => (Ok xs, set_np_random self g)
    | Raise e => (Raise e, self)
    end.

(** [self.data.joint(name).qpos] *)
Definition data_joint_qpos (name : string) : M ReachCubeEnv np.ndarray :=
  fun self => (joint_qpos (model self) (data self) name, self).

Local Open Scope method_scope.

Definition reset (seed : option N) (options : option Options)
  : M ReachCubeEnv (Observation * Info base) :=
  (* We need the following line to seed self.np_random *)
  super_reset seed options ;;
  (* Reset the robot to the initial position *)
  assign_qpos 0 6 [0; 0; 0; 0; 0; 0] ;;
  (* Sample and set the object position *)
  lo <- gets object_low ;;
  hi <- gets object_high ;;
  sampled <- np_random_uniform lo hi ;;
  let object_pos := np.astype_float32 sampled in
  let object_rot := [1; 0; 0; 0] in
  assign_qpos 6 13 (np.concatenate [object_pos; object_rot]) ;;
  (* Step the simulation *)
  modify (fun self => set_data self (mj_forward sim (model self) (data self))) ;;
  (* Get the additional info *)
  info <- gets (fun self => get_info base (model self) (data self)) ;;
  observation <- get_observation_dict_one_object ;;
  ret (observation, info).

Definition get_observation : M ReachCubeEnv np.ndarray :=
  gets (fun self => np.astype_float32 (np.getslice (qpos (data self)) 0 8)).

Definition step (action : np.ndarray)
  : M ReachCubeEnv (Observation * R * bool * bool * Info base) :=
  (* Perform the action and step the simulation *)
  base_step_action_nograsp action ;;
  (* Get the new observation *)
  observation <- get_observation_dict_one_object ;;
  (* Compute the distance between the cube and the end-effector *)
  cube_qpos <- data_joint_qpos "red_box_joint" ;;
  let cube_pos := np.getslice cube_qpos 0 3 in
  ee_qpos <- data_joint_qpos "gripper_opening" ;;
  let ee_pos := np.getslice ee_qpos 0 3 in
  diff <- lift (np.subtract cube_pos ee_pos) ;;
  let distance := np.linalg_norm diff in
  (* Compute the reward based on the distance *)
  let reward := - distance in
  (* The episode is terminated if the distance is less than the threshold *)
  terminated <- gets (fun self => Rltb distance (threshold_distance self)) ;;
  (* Get the additional info *)
  info <- gets (fun self => get_info base (model self) (data self)) ;;
  ret (observation, reward, terminated, false, info).

(** The states an environment object goes through: constructed, then any
    sequence of calls, whether they return or raise. *)
Inductive reachable : ReachCubeEnv -> Prop :=
| reach_init : forall image_state action_mode render_mode obj_xy_range,
    reachable (__init__ image_state action_mode render_mode obj_xy_range)
| reach_reset : forall self seed options,
    reachable self -> reachable (snd (reset seed options self))
| reach_get_observation : forall self,
    reachable self -> reachable (snd (get_observation self))
| reach_step : forall self action,
    reachable self -> reachable (snd (step action self)).

(** The generator a [reset] samples from. *)
Definition reseeded (self : ReachCubeEnv) (seed : option N) : bitgen G :=
  match seed with
  | Some s => seed_bitgen G s
  | None => np_random self
  end.

(** Two states of an object that differ at most in the simulator data and
    the generator. *)
Definition same_config (s t : ReachCubeEnv) : Prop :=
  model t = model s /\
  action_mode t = action_mode s /\
  action_space t = action_space s /\
  observation_space t = observation_space s /\
  threshold_distance t = threshold_distance s /\
  object_low t = object_low s /\
  object_high t = object_high s.

(** A method that keeps the configuration, whether it returns or raises. *)
Definition keeps_config {A : Type} (m : M ReachCubeEnv A) : Prop :=
  forall s, same_config s (snd (m s)).

End Environment.

Arguments reachable {G} sim base self.

(** ** The distance the task is about

    The cube position is the first three coordinates of the joint
    "red_box_joint" and the end-effector position is what the first three
    coordinates of the joint "gripper_opening" give; the distance of the
    task in a simulator state is the Euclidean norm of their difference. *)

Definition cube_pos (m : MjModel) (d : MjData) : result np.ndarray :=
  result_bind (joint_qpos m d "red_box_joint") (fun q => Ok (np.getslice q 0 3)).

Definition ee_pos (m : MjModel) (d : MjData) : result np.ndarray :=
  result_bind (joint_qpos m d "gripper_opening") (fun q => Ok (np.getslice q 0 3)).

Definition distance_to_cube (m : MjModel) (d : MjData) : result R :=
  result_bind (cube_pos m d) (fun c =>
  result_bind (ee_pos m d) (fun e =>
  result_bind (np.subtract c e) (fun diff =>
  Ok (np.linalg_norm diff)))).

(** ** Shapes *)







(** ** Uniform sampling

    A uniform sample between [lo] and [hi] is the image of doubles [us] of
    the unit interval under [u |-> l + (h - l) * u], coordinate by
    coordinate. *)
Definition uniform_image (lo hi us : list R) : list R :=
  map (fun bu => fst (fst bu) + (snd (fst bu) - fst (fst bu)) * snd bu)
      (combine (combine lo hi) us).

(** ** A reference instance of the collaborators

    A scene with five hinge joints of the arm, the hinge "gripper_opening"
    and the free joint "red_box_joint" of the cube; a generator that
    alternates between two doubles; an engine whose forward pass places the
    cube and whose step moves the actuated joints onto their targets. *)

Definition hinge (name : string) (adr : nat) : Joint :=
  {| jnt_name := name; jnt_type := mjJNT_HINGE; jnt_qposadr := adr |}.

Definition one_cube_model : MjModel :=
  {| jnt := [ hinge "joint1" 0; hinge "joint2" 1; hinge "joint3" 2;
              hinge "joint4" 3; hinge "joint5" 4; hinge "gripper_opening" 5;
              {| jnt_name := "red_box_joint"; jnt_type := mjJNT_FREE; jnt_qposadr := 6 |} ] |}.

Definition one_cube_data : MjData :=
  {| qpos := [0; 0; 0; 0; 0; 0; 0; 0; 0; 1; 0; 0; 0];
     qvel := [0; 0; 0; 0; 0; 0; 0; 0; 0; 0; 0; 0];
     ctrl := [0; 0; 0; 0; 0; 0];
     time := 0;
     xpos := [] |}.

Definition reference_sim : Simulator :=
  {| from_xml_path := fun _ => one_cube_model;
     make_data := fun _ => one_cube_data;
     mj_forward := fun _ d =>
       {| qpos := qpos d; qvel := qvel d; ctrl := ctrl d; time := time d;
          xpos := np.getslice (qpos d) 6 9 |};
     mj_step := fun _ d =>
       {| qpos := firstn (length (qpos d)) (ctrl d ++ skipn (length (ctrl d)) (qpos d));
          qvel := qvel d; ctrl := ctrl d; time := time d + 0.002;
          xpos := xpos d |};
     render := fun _ _ _ => [] |}.

Definition reference_bitgen : BitGenerator :=
  {| bitgen := N;
     os_entropy := 0%N;
     seed_bitgen := fun s => s;
     next_double := fun g => (if N.even g then 1 / 4 else 3 / 4, N.succ g) |}.

Definition reference_base : BaseRobotEnvParams :=
  {| ASSETS_PATH := "assets";
     Info := unit;
     get_info := fun _ _ => tt;
     set_object_range := fun r => ([- r; - r; 0.05], [r; r; 0.05]);
     n_substeps := 2;
     inverse_kinematics := fun _ _ target => target |}.

(** A freshly constructed environment with the default arguments. *)
Definition fresh_env : ReachCubeEnv reference_bitgen :=
  __init__ reference_bitgen reference_sim reference_base None joint None 0.15.

(** The same environment in a later simulator state: the arm is bent, the
    gripper is open by 0.5 rad, the cube lies at (0.1, 0.05, 0.05), and the
    first arm joint turns at 11 rad/s. *)
Definition spinning_env : ReachCubeEnv reference_bitgen :=
  set_data fresh_env
    {| qpos := [0.3; -0.2; 0.1; 0; 0; 0.5; 0.1; 0.05; 0.05; 1; 0; 0; 0];
       qvel := [11; 0; 0; 0; 0; 0; 0; 0; 0; 0; 0; 0];
       ctrl := [0.3; -0.2; 0.1; 0; 0; 0.5];
       time := 1;
       xpos := [0.1; 0.05; 0.05] |}.

(** ** The generator after some draws *)

(** The state of the generator after [n] calls of [Generator.random()]. *)
Fixpoint advance (G : BitGenerator) (n : nat) (g : bitgen G) : bitgen G :=
  match n with
  | O => g
  | S n' => advance G n' (snd (next_double G g))
  end.

(** ** Further states of the reference instance *)



(** An environment whose simulator has a second free body behind the cube:
    twenty position coordinates. *)
Definition crowded_env : ReachCubeEnv reference_bitgen :=
  set_data fresh_env
    {| qpos := [0.3; -0.2; 0.1; 0; 0; 0.5; 0.1; 0.05; 0.05; 1; 0; 0; 0;
                0.2; 0.2; 0.05; 0; 1; 0; 0];
       qvel := [0; 0; 0; 0; 0; 0; 0; 0; 0; 0; 0; 0; 0; 0; 0; 0; 0; 0];
       ctrl := [0; 0; 0; 0; 0; 0];
       time := 1;
       xpos := [] |}.

(** An environment whose scene has the arm but no cube. *)
Definition cubeless_env : ReachCubeEnv reference_bitgen :=
  {| model := {| jnt := [ hinge "joint1" 0; hinge "joint2" 1; hinge "joint3" 2;
                          hinge "joint4" 3; hinge "joint5" 4; hinge "gripper_opening" 5 ] |};
     data := data spinning_env;
     np_random := np_random spinning_env;
     image_state := image_state spinning_env; action_mode := action_mode spinning_env;
     render_mode := render_mode spinning_env; action_space := action_space spinning_env;
     observation_space := observation_space spinning_env;
     threshold_distance := threshold_distance spinning_env;
     object_low := object_low spinning_env;
     object_high := object_high spinning_env |}.

(** ** Proofs *)

(** *** Arrays *)

Lemma getslice_length (a : np.ndarray) (i j : nat) :
  length (np.getslice a i j) = Nat.min (j - i) (length a - i)%nat.
Proof.
  unfold np.getslice. rewrite length_firstn, length_skipn. reflexivity.
Qed.

Lemma getslice_prefix (a b : np.ndarray) (n : nat) :
  length a = n -> np.getslice (a ++ b) 0 n = a.
Proof.
  intros <-. unfold np.getslice. rewrite Nat.sub_0_r. simpl.
  rewrite firstn_app, Nat.sub_diag, firstn_all. simpl. apply app_nil_r.
Qed.

Lemma getslice_middle (a b c : np.ndarray) (i j : nat) :
  length a = i -> length b = (j - i)%nat ->
  np.getslice (a ++ b ++ c) i j = b.
Proof.
  intros Ha Hb. unfold np.getslice.
  rewrite skipn_app, <- Ha, skipn_all, Nat.sub_diag. simpl.
  rewrite Ha, <- Hb, firstn_app, Nat.sub_diag, firstn_all. simpl. apply app_nil_r.
Qed.

(** A value of two or more elements is never repeated: it is stored only
    when it has the length of the slice. *)
Lemma setslice_long (a v a' : np.ndarray) (i j : nat) :
  (2 <= length v)%nat ->
  np.setslice a i j v = Ok a' ->
  length v = length (np.getslice a i j) /\
  a' = firstn i a ++ v ++ skipn (i + length v) a.
Proof.
  intros Hv. unfold np.setslice.
  destruct (Nat.eqb (length v) (length (np.getslice a i j))) eqn:E.
  - apply Nat.eqb_eq in E. intros [= <-]. rewrite <- E. split; reflexivity.
  - destruct v as [|x [|y v]]; simpl in Hv; try lia; discriminate.
Qed.

Lemma setslice_length (a v a' : np.ndarray) (i j : nat) :
  np.setslice a i j v = Ok a' -> length a' = length a.
Proof.
  unfold np.setslice.
  assert (Hlen : forall w : np.ndarray,
             length w = length (np.getslice a i j) ->
             length (firstn i a ++ w ++ skipn (i + length (np.getslice a i j)) a) = length a).
  { intros w Hw. rewrite !length_app, length_firstn, length_skipn, Hw, getslice_length. lia. }
  destruct (Nat.eqb (length v) (length (np.getslice a i j))) eqn:E.
  - apply Nat.eqb_eq in E. intros [= <-]. apply Hlen, E.
  - destruct v as [|x [|y v]]; try discriminate.
    intros [= <-]. apply Hlen, repeat_length.
Qed.

Lemma sum_squares_nonneg (a : np.ndarray) : 0 <= np.sum_squares a.
Proof.
  induction a as [|x a IH]; simpl.
  - lra.
  - pose proof (Rle_0_sqr x) as Hx. unfold Rsqr in Hx. lra.
Qed.

Lemma linalg_norm_nonneg (a : np.ndarray) : 0 <= np.linalg_norm a.
Proof. apply sqrt_pos. Qed.

Lemma clip_between (x lo hi : R) :
  lo <= hi -> lo <= Rmin (Rmax x lo) hi <= hi.
Proof.
  intros H. split.
  - apply Rmin_glb; [apply Rmax_r | exact H].
  - apply Rmin_r.
Qed.

Lemma clip_in_range (a : np.ndarray) (lo hi : R) :
  lo <= hi -> Forall (fun x => lo <= x <= hi) (np.clip a lo hi).
Proof.
  intros H. unfold np.clip. apply Forall_map, Forall_forall.
  intros x _. apply clip_between, H.
Qed.

Lemma clip_fixes_range (a : np.ndarray) (lo hi : R) :
  Forall (fun x => lo <= x <= hi) a -> np.clip a lo hi = a.
Proof.
  unfold np.clip. induction 1 as [|x a [Hlo Hhi] _ IH]; simpl.
  - reflexivity.
  - rewrite IH, (Rmax_left x lo Hlo), (Rmin_left x hi Hhi). reflexivity.
Qed.

Lemma clip_idempotent (a : np.ndarray) (lo hi : R) :
  lo <= hi -> np.clip (np.clip a lo hi) lo hi = np.clip a lo hi.
Proof. intros H. apply clip_fixes_range, clip_in_range, H. Qed.

Lemma Rltb_true (x y : R) : Rltb x y = true <-> x < y.
Proof.
  unfold Rltb. destruct (Rlt_dec x y) as [H|H]; split; intros H'.
  - exact H.
  - reflexivity.
  - discriminate.
  - contradiction.
Qed.

(** *** The random source *)

Section Sampling.

Variable G : BitGenerator.

Lemma sample_length (bounds : list (R * R)) (g : bitgen G) :
  length (fst (Generator.sample G bounds g)) = length bounds.
Proof.
  revert g. induction bounds as [|[lo hi] rest IH]; intros g; simpl.
  - reflexivity.
  - destruct (next_double G g) as [u g1].
    specialize (IH g1). destruct (Generator.sample G rest g1) as [xs g2].
    simpl in *. now rewrite IH.
Qed.

(** A sample is the affine image of the stream of doubles. *)
Lemma sample_doubles (bounds : list (R * R)) (g : bitgen G) :
  fst (Generator.sample G bounds g) =
  map (fun bu => fst (fst bu) + (snd (fst bu) - fst (fst bu)) * snd bu)
      (combine bounds (Generator.doubles G (length bounds) g)).
Proof.
  revert g. induction bounds as [|[lo hi] rest IH]; intros g; simpl.
  - reflexivity.
  - destruct (next_double G g) as [u g1].
    specialize (IH g1). destruct (Generator.sample G rest g1) as [xs g2].
    simpl in *. now rewrite IH.
Qed.

Hypothesis G_unit : unit_doubles G.

Lemma doubles_unit (n : nat) (g : bitgen G) :
  Forall (fun u => 0 <= u < 1) (Generator.doubles G n g).
Proof.
  revert g. induction n as [|n IH]; intros g; simpl.
  - constructor.
  - pose proof (G_unit g) as Hu. destruct (next_double G g) as [u g1].
    constructor; [exact Hu | apply IH].
Qed.


End Sampling.

(** *** Methods keep the configuration *)

Section Methods.

Variable G : BitGenerator.
Variable sim : Simulator.
Variable base : BaseRobotEnvParams.

Let Env := ReachCubeEnv G.

Lemma same_config_refl (s : Env) : same_config s s.
Proof. repeat split. Qed.

Lemma same_config_trans (s t u : Env) :
  same_config s t -> same_config t u -> same_config s u.
Proof.
  unfold same_config. intros (A1 & A2 & A3 & A4 & A5 & A6 & A7) (B1 & B2 & B3 & B4 & B5 & B6 & B7).
  repeat split; congruence.
Qed.

Lemma keeps_ret {A : Type} (a : A) : keeps_config (ret a : M Env A).
Proof. intros s. apply same_config_refl. Qed.

Lemma keeps_gets {A : Type} (f : Env -> A) : keeps_config (gets f).
Proof. intros s. apply same_config_refl. Qed.

Lemma keeps_lift {A : Type} (r : result A) : keeps_config (lift r : M Env A).
Proof. intros s. apply same_config_refl. Qed.

Lemma keeps_read {A : Type} (f : Env -> result A) :
  keeps_config (fun self => (f self, self)).
Proof. intros s. apply same_config_refl. Qed.

Lemma keeps_bind {A B : Type} (m : M Env A) (k : A -> M Env B) :
  keeps_config m -> (forall a, keeps_config (k a)) -> keeps_config (bind m k).
Proof.
  intros Hm Hk s. unfold bind. specialize (Hm s).
  destruct (m s) as [[a|e] s1]; simpl in *.
  - eapply same_config_trans; [exact Hm | apply Hk].
  - exact Hm.
Qed.

Lemma keeps_modify (f : Env -> Env) :
  (forall s, same_config s (f s)) -> keeps_config (modify f).
Proof. intros Hf s. apply Hf. Qed.

Lemma keeps_assign_qpos (i j : nat) (v : np.ndarray) :
  keeps_config (assign_qpos i j v : M Env unit).
Proof.
  intros s. unfold assign_qpos.
  destruct (np.setslice (qpos (data s)) i j v); simpl; repeat split.
Qed.

Lemma keeps_np_random_uniform (lo hi : np.ndarray) :
  keeps_config (np_random_uniform lo hi : M Env np.ndarray).
Proof.
  intros s. unfold np_random_uniform.
  destruct (Generator.uniform G lo hi (np_random s)) as [[xs g]|e]; simpl; repeat split.
Qed.

Lemma keeps_super_reset (seed : option N) (options : option Options) :
  keeps_config (super_reset seed options : M Env unit).
Proof.
  apply keeps_modify. intros s. destruct seed; repeat split.
Qed.

Create HintDb keeps.

#[local] Hint Resolve keeps_ret keeps_gets keeps_lift keeps_read keeps_assign_qpos
  keeps_np_random_uniform keeps_super_reset : keeps.

Ltac keeps_config_tac :=
  repeat first
    [ solve [auto with keeps]
    | apply keeps_bind; [|intros ?]
    | apply keeps_modify; intros ?; repeat split ].

Lemma keeps_reset (seed : option N) (options : option Options) :
  keeps_config (reset (G := G) sim base seed options).
Proof.
  unfold reset, get_observation_dict_one_object.
  keeps_config_tac.
Qed.

Lemma keeps_get_observation : keeps_config (get_observation (G := G)).
Proof. unfold get_observation. keeps_config_tac. Qed.

Lemma keeps_step (action : np.ndarray) :
  keeps_config (step (G := G) sim base action).
Proof.
  unfold step, base_step_action_nograsp, get_observation_dict_one_object, data_joint_qpos.
  keeps_config_tac.
Qed.

(** What the constructor configures holds in every state the object goes
    through. *)
Lemma reachable_config (self : Env) :
  reachable sim base self ->
  exists image_state action_mode render_mode obj_xy_range,
    same_config (__init__ G sim base image_state action_mode render_mode obj_xy_range) self.
Proof.
  induction 1 as [i a r o | self seed options _ IH | self _ IH | self action _ IH].
  - exists i, a, r, o. apply same_config_refl.
  - destruct IH as (i & a & r & o & IH). exists i, a, r, o.
    eapply same_config_trans; [exact IH | apply keeps_reset].
  - destruct IH as (i & a & r & o & IH). exists i, a, r, o.
    eapply same_config_trans; [exact IH | apply keeps_get_observation].
  - destruct IH as (i & a & r & o & IH). exists i, a, r, o.
    eapply same_config_trans; [exact IH | apply keeps_step].
Qed.

Lemma reachable_threshold (self : Env) :
  reachable sim base self -> threshold_distance self = 0.01.
Proof.
  intros H. destruct (reachable_config H) as (i & a & r & o & C).
  destruct C as (_ & _ & _ & _ & C & _). exact C.
Qed.


Lemma reachable_action_space (self : Env) :
  reachable sim base self ->
  action_space self = set_action_space_without_gripper (action_mode self).
Proof.
  intros H. destruct (reachable_config H) as (i & a & r & o & C).
  destruct C as (_ & C2 & C3 & _). rewrite C3, C2. reflexivity.
Qed.

Lemma reachable_object_range (self : Env) :
  reachable sim base self ->
  exists obj_xy_range,
    object_low self = fst (set_object_range base obj_xy_range) /\
    object_high self = snd (set_object_range base obj_xy_range).
Proof.
  intros H. destruct (reachable_config H) as (i & a & r & o & C).
  destruct C as (_ & _ & _ & _ & _ & C6 & C7). exists o. split; assumption.
Qed.

End Methods.

(** *** What a call does *)

Section Calls.
Variable G : BitGenerator.
Variable sim : Simulator.
Variable base : BaseRobotEnvParams.
Let Env := ReachCubeEnv G.

Lemma setslice_neutral (a q : np.ndarray) :
  np.setslice a 0 6 [0; 0; 0; 0; 0; 0] = Ok q ->
  q = [0; 0; 0; 0; 0; 0] ++ skipn 6 a /\ (6 <= length a)%nat.
Proof.
  intros H. apply setslice_long in H; [|simpl; lia].
  destruct H as [Hlen ->]. simpl in Hlen. rewrite getslice_length in Hlen.
  split; [reflexivity | lia].
Qed.

Lemma setslice_object (a pos q : np.ndarray) :
  (6 <= length a)%nat ->
  np.setslice ([0; 0; 0; 0; 0; 0] ++ skipn 6 a) 6 13 (pos ++ [1; 0; 0; 0]) = Ok q ->
  q = [0; 0; 0; 0; 0; 0] ++ pos ++ [1; 0; 0; 0] ++ skipn 13 a /\
  length q = length a /\
  (length pos = 3%nat \/ skipn 13 a = []).
Proof.
  intros Ha H.
  assert (Hz : length ([0; 0; 0; 0; 0; 0] ++ skipn 6 a) = length a).
  { rewrite length_app, length_skipn. simpl. lia. }
  pose proof (setslice_length _ _ _ _ H) as Hq. rewrite Hz in Hq.
  apply setslice_long in H; [|rewrite length_app; simpl; lia].
  destruct H as [Hlen Hval].
  rewrite getslice_length, Hz, length_app in Hlen.
  change (length [1; 0; 0; 0]) with 4%nat in Hlen.
  assert (Hskip : skipn (6 + length (pos ++ [1; 0; 0; 0])) ([0; 0; 0; 0; 0; 0] ++ skipn 6 a)
                  = skipn 13 a).
  { rewrite length_app. simpl length.
    change (skipn (6 + (length pos + 4)) ([0; 0; 0; 0; 0; 0] ++ skipn 6 a))
      with (skipn (length pos + 4) (skipn 6 a)).
    rewrite skipn_skipn.
    destruct (Nat.le_gt_cases 13 (length a)) as [Hge|Hlt].
    - replace (length pos + 4 + 6)%nat with 13%nat by lia. reflexivity.
    - rewrite !skipn_all2 by lia. reflexivity. }
  rewrite Hskip in Hval. simpl firstn in Hval. rewrite <- app_assoc in Hval.
  repeat split.
  - exact Hval.
  - exact Hq.
  - destruct (Nat.le_gt_cases 13 (length a)) as [Hge|Hlt].
    + left. lia.
    + right. apply skipn_all2. lia.
Qed.


Lemma reset_returns (self : Env) (seed : option N) (options : option Options)
      (obs : Observation) (info : Info base) :
  fst (reset sim base seed options self) = Ok (obs, info) ->
  exists bounds,
    np.broadcast2 (object_low self) (object_high self) = Ok bounds /\
    let g0 := reseeded self seed in
    let pos := fst (Generator.sample G bounds g0) in
    let q := [0; 0; 0; 0; 0; 0] ++ pos ++ [1; 0; 0; 0] ++ skipn 13 (qpos (data self)) in
    length q = length (qpos (data self)) /\
    (length pos = 3%nat \/ skipn 13 (qpos (data self)) = []) /\
    snd (reset sim base seed options self) =
      set_data (set_np_random self (snd (Generator.sample G bounds g0)))
               (mj_forward sim (model self) (set_qpos (data self) q)) /\
    fst (get_observation_dict_one_object sim (snd (reset sim base seed options self))) = Ok obs /\
    info = get_info base (model self) (data (snd (reset sim base seed options self))).
Proof.
  unfold reset, get_observation_dict_one_object, bind, super_reset, modify, gets, ret,
    np_random_uniform, assign_qpos, Generator.uniform.
  cbn [fst snd].
  set (s0 := match seed with Some s => set_np_random self (seed_bitgen G s) | None => self end).
  assert (Hd : data s0 = data self) by (destruct seed; reflexivity).
  assert (Hm : model s0 = model self) by (destruct seed; reflexivity).
  assert (Hlo : object_low s0 = object_low self) by (destruct seed; reflexivity).
  assert (Hhi : object_high s0 = object_high self) by (destruct seed; reflexivity).
  assert (Hg : np_random s0 = reseeded self seed) by (destruct seed; reflexivity).
  assert (Hs : forall g d, set_data (set_np_random s0 g) d = set_data (set_np_random self g) d)
    by (destruct seed; reflexivity).
  rewrite Hd.
  destruct (np.setslice (qpos (data self)) 0 6 [0; 0; 0; 0; 0; 0]) as [q1|e1] eqn:E1;
    cbn [fst snd]; [|discriminate].
  apply setslice_neutral in E1. destruct E1 as [-> Hnq].
  cbn [object_low object_high np_random set_data]. rewrite Hlo, Hhi, Hg.
  destruct (np.broadcast2 (object_low self) (object_high self)) as [bounds|e2];
    cbn [fst snd result_bind]; [|discriminate].
  destruct (Generator.sample G bounds (reseeded self seed)) as [pos g1] eqn:E3.
  cbn [fst snd data qpos set_data set_qpos set_np_random].
  unfold np.concatenate, np.astype_float32. cbn [concat]. rewrite app_nil_r.
  destruct (np.setslice ([0; 0; 0; 0; 0; 0] ++ skipn 6 (qpos (data self))) 6 13
                        (pos ++ [1; 0; 0; 0])) as [q2|e4] eqn:E4;
    cbn [fst snd]; [|discriminate].
  apply setslice_object in E4; [|exact Hnq]. destruct E4 as (-> & Hlen & Hpos).
  intros [= <- <-]. exists bounds. split; [reflexivity|].
  cbn zeta. rewrite E3. cbn [fst snd]. repeat split.
  - exact Hlen.
  - exact Hpos.
  - cbn [model set_data data set_np_random]. rewrite Hm. apply (Hs g1).
  - cbn [model set_data data set_np_random]. rewrite Hm. reflexivity.
Qed.


Lemma step_returns (self : Env) (action : np.ndarray) (obs : Observation)
      (reward : R) (terminated truncated : bool) (info : Info base) :
  fst (step sim base action self) = Ok (obs, reward, terminated, truncated, info) ->
  let self' := snd (step sim base action self) in
  self' = snd (base_step_action_nograsp sim base action self) /\
  exists dist,
    distance_to_cube (model self') (data self') = Ok dist /\
    reward = - dist /\
    terminated = Rltb dist (threshold_distance self) /\
    truncated = false /\
    fst (get_observation_dict_one_object sim self') = Ok obs /\
    info = get_info base (model self') (data self').
Proof.
  unfold step, get_observation_dict_one_object, base_step_action_nograsp, data_joint_qpos,
    bind, modify, gets, ret, lift, distance_to_cube, cube_pos, ee_pos.
  cbn [fst snd].
  set (s1 := set_data self _).
  destruct (joint_qpos (model s1) (data s1) "red_box_joint") as [cube|e1] eqn:E1;
    cbn [fst snd result_bind]; [|discriminate].
  destruct (joint_qpos (model s1) (data s1) "gripper_opening") as [gripper|e2] eqn:E2;
    cbn [fst snd result_bind]; [|discriminate].
  destruct (np.subtract (np.getslice cube 0 3) (np.getslice gripper 0 3)) as [diff|e3] eqn:E3;
    cbn [fst snd result_bind]; [|discriminate].
  intros [= <- <- <- <- <-]. split; [reflexivity|].
  exists (np.linalg_norm diff). split; [|repeat split].
  rewrite E1. cbn [result_bind]. rewrite E2. cbn [result_bind]. rewrite E3. reflexivity.
Qed.

(** [step] returns whenever the scene has the two joints the reward reads
    and their coordinates can be subtracted. *)
Lemma step_total (self : Env) (action : np.ndarray) (dist : R) :
  (let self' := snd (base_step_action_nograsp sim base action self) in
   distance_to_cube (model self') (data self') = Ok dist) ->
  exists obs info,
    fst (step sim base action self)
    = Ok (obs, - dist, Rltb dist (threshold_distance self), false, info).
Proof.
  unfold step, get_observation_dict_one_object, base_step_action_nograsp, data_joint_qpos,
    bind, modify, gets, ret, lift, distance_to_cube, cube_pos, ee_pos.
  cbn [fst snd].
  set (s1 := set_data self _).
  destruct (joint_qpos (model s1) (data s1) "red_box_joint") as [cube|e1];
    cbn [fst snd result_bind]; [|discriminate].
  destruct (joint_qpos (model s1) (data s1) "gripper_opening") as [gripper|e2];
    cbn [fst snd result_bind]; [|discriminate].
  destruct (np.subtract (np.getslice cube 0 3) (np.getslice gripper 0 3)) as [diff|e3];
    cbn [fst snd result_bind]; [|discriminate].
  intros [= <-]. eexists. eexists. reflexivity.
Qed.


End Calls.

(** ** The properties of [step] *)

Section StepProperties.

Variable G : BitGenerator.
Variable sim : Simulator.
Variable base : BaseRobotEnvParams.
Let Env := ReachCubeEnv G.

(** C1.  Whenever [step] returns, [terminated] is true exactly when the
    Euclidean distance between the end-effector position and the cube
    position, read in the simulator state after the action was applied and
    the simulation advanced, is strictly below the threshold 0.01 that the
    constructor configures. *)
Theorem step_terminated_iff_within_threshold
        (self : Env) (action : np.ndarray) (obs : Observation) (reward : R)
        (terminated truncated : bool) (info : Info base) :
  reachable sim base self ->
  fst (step sim base action self) = Ok (obs, reward, terminated, truncated, info) ->
  let self' := snd (step sim base action self) in
  self' = snd (base_step_action_nograsp sim base action self) /\
  exists distance,
    distance_to_cube (model self') (data self') = Ok distance /\
    (terminated = true <-> distance < 0.01).
Proof.
  intros Hreach Hstep. apply step_returns in Hstep.
  destruct Hstep as (Hself & dist & Hdist & _ & Hterm & _).
  split; [exact Hself|]. exists dist. split; [exact Hdist|].
  rewrite Hterm, (reachable_threshold Hreach). apply Rltb_true.
Qed.


(** C3.  Whenever [step] returns, whatever the action and the simulator
    state, the truncated flag is false. *)
Theorem step_truncated_false
        (self : Env) (action : np.ndarray) (obs : Observation) (reward : R)
        (terminated truncated : bool) (info : Info base) :
  fst (step sim base action self) = Ok (obs, reward, terminated, truncated, info) ->
  truncated = false.
Proof.
  intros Hstep. apply step_returns in Hstep.
  destruct Hstep as (_ & dist & _ & _ & _ & Htrunc & _). exact Htrunc.
Qed.

(** C8.  Whenever [step] returns, the reward is at most 0: it is the
    negation of a Euclidean norm, which is not negative. *)
Theorem step_reward_nonpositive
        (self : Env) (action : np.ndarray) (obs : Observation) (reward : R)
        (terminated truncated : bool) (info : Info base) :
  fst (step sim base action self) = Ok (obs, reward, terminated, truncated, info) ->
  reward <= 0.
Proof.
  intros Hstep. apply step_returns in Hstep.
  destruct Hstep as (_ & dist & Hdist & -> & _).
  assert (0 <= dist); [|lra].
  unfold distance_to_cube in Hdist.
  destruct (cube_pos _ _) as [cube|]; [|discriminate].
  destruct (ee_pos _ _) as [e|]; [|discriminate].
  cbn [result_bind] in Hdist.
  destruct (np.subtract cube e) as [diff|]; [|discriminate].
  injection Hdist as <-. apply linalg_norm_nonneg.
Qed.

(** C9.  An action with components outside the declared bounds -1.0 and
    1.0 is not rejected: [step] treats it as the action clipped to the
    bounds, which is what reaches the simulator's actuation inputs, and it
    returns whenever the distance can be read in the state it advanced to,
    whatever the action. *)
Theorem step_clips_action (self : Env) (action : np.ndarray) :
  reachable sim base self ->
  let clipped := np.clip action (-1) 1 in
  let self' := snd (base_step_action_nograsp sim base action self) in
  in_box (action_space self) clipped /\
  data self'
  = Nat.iter (n_substeps base) (mj_step sim (model self))
             (set_ctrl (data self)
                       match action_mode self with
                       | joint => clipped
                       | ee => inverse_kinematics base (model self) (data self) clipped
                       end) /\
  step sim base action self = step sim base clipped self /\
  (forall distance,
      distance_to_cube (model self') (data self') = Ok distance ->
      exists obs info,
        fst (step sim base action self)
        = Ok (obs, - distance, Rltb distance (threshold_distance self), false, info)).
Proof.
  intros Hreach clipped self'.
  pose proof (reachable_action_space Hreach) as Hspace.
  assert (Hact : forall a, actuation base self a
                           = match action_mode self with
                             | joint => np.clip a (-1) 1
                             | ee => inverse_kinematics base (model self) (data self)
                                                        (np.clip a (-1) 1)
                             end).
  { intros a. unfold actuation. rewrite Hspace. destruct (action_mode self); reflexivity. }
  assert (Hidem : np.clip clipped (-1) 1 = clipped) by (apply clip_idempotent; lra).
  split; [|split; [|split]].
  - unfold in_box. rewrite Hspace.
    replace (low (set_action_space_without_gripper (action_mode self))) with (-1)
      by (destruct (action_mode self); reflexivity).
    replace (high (set_action_space_without_gripper (action_mode self))) with 1
      by (destruct (action_mode self); reflexivity).
    apply clip_in_range. lra.
  - unfold self', base_step_action_nograsp, modify. cbn [snd data set_data].
    rewrite Hact. reflexivity.
  - unfold step, base_step_action_nograsp, bind, modify.
    rewrite (Hact action), (Hact clipped), Hidem. reflexivity.
  - intros distance Hdistance. apply step_total. exact Hdistance.
Qed.

End StepProperties.

(** ** The properties of [reset] *)

Section ResetProperties.

Variable G : BitGenerator.
Variable sim : Simulator.
Variable base : BaseRobotEnvParams.
Let Env := ReachCubeEnv G.

(** The engine's contract for the forward pass is assumed throughout this
    section; it is a premise of every statement below. *)
Hypothesis forward_ok : forward_is_kinematic sim.

(** The position coordinates after a [reset] that returned. *)
Lemma reset_qpos (self : Env) (seed : option N) (options : option Options)
      (obs : Observation) (info : Info base) :
  fst (reset sim base seed options self) = Ok (obs, info) ->
  exists bounds,
    np.broadcast2 (object_low self) (object_high self) = Ok bounds /\
    let pos := fst (Generator.sample G bounds (reseeded self seed)) in
    qpos (data (snd (reset sim base seed options self)))
    = [0; 0; 0; 0; 0; 0] ++ pos ++ [1; 0; 0; 0] ++ skipn 13 (qpos (data self)) /\
    (length pos = 3%nat \/ skipn 13 (qpos (data self)) = []).
Proof.
  intros H. apply reset_returns in H.
  destruct H as (bounds & Hb & _ & Hpos & Hstate & _).
  exists bounds. split; [exact Hb|]. cbn zeta. split; [|exact Hpos].
  rewrite Hstate. cbn [data set_data]. rewrite (forward_qpos forward_ok). reflexivity.
Qed.

Lemma broadcast2_same_length (lo hi : np.ndarray) (bounds : list (R * R)) :
  length lo = length hi ->
  np.broadcast2 lo hi = Ok bounds -> bounds = combine lo hi.
Proof.
  intros Hlen. unfold np.broadcast2. rewrite Hlen, Nat.eqb_refl. now intros [= <-].
Qed.

(** C4.  Whenever [reset] returns, for any seed and any options: the six
    arm coordinates are the neutral pose of zeros; the object position is a
    uniform sample, the image of the next three doubles of the (re)seeded
    generator between [object_low] and [object_high]; the object orientation
    is the identity quaternion; and the simulator was advanced by exactly
    one forward pass over the state so written, with no time integration:
    simulated time and velocities are those from before the call.  The
    observation returned is the one of the resulting state. *)
Theorem reset_neutral_pose_sampled_object_forward_only
        (self : Env) (seed : option N) (options : option Options)
        (obs : Observation) (info : Info base) :
  unit_doubles G ->
  length (object_low self) = 3%nat ->
  length (object_high self) = 3%nat ->
  fst (reset sim base seed options self) = Ok (obs, info) ->
  let self' := snd (reset sim base seed options self) in
  let us := Generator.doubles G 3 (reseeded self seed) in
  let object_pos := uniform_image (object_low self) (object_high self) us in
  Forall (fun u => 0 <= u < 1) us /\
  np.getslice (qpos (data self')) 0 6 = [0; 0; 0; 0; 0; 0] /\
  np.getslice (qpos (data self')) 6 9 = object_pos /\
  np.getslice (qpos (data self')) 9 13 = [1; 0; 0; 0] /\
  data self' = mj_forward sim (model self)
                 (set_qpos (data self)
                    ([0; 0; 0; 0; 0; 0] ++ object_pos ++ [1; 0; 0; 0]
                       ++ skipn 13 (qpos (data self)))) /\
  time (data self') = time (data self) /\
  qvel (data self') = qvel (data self) /\
  fst (get_observation_dict_one_object sim self') = Ok obs.
Proof.
  intros Hunit Hlo Hhi Hreset self' us object_pos.
  pose proof (reset_qpos _ _ _ Hreset) as (bounds & Hb & Hq & _).
  pose proof (reset_returns _ _ _ _ _ Hreset) as (bounds' & Hb' & _ & _ & Hstate & Hobs & _).
  rewrite Hb in Hb'. injection Hb' as <-.
  apply broadcast2_same_length in Hb; [|congruence]. subst bounds.
  assert (Hpos : fst (Generator.sample G (combine (object_low self) (object_high self))
                                       (reseeded self seed)) = object_pos).
  { rewrite sample_doubles, length_combine, Hlo, Hhi. reflexivity. }
  cbn zeta in Hq, Hstate. rewrite Hpos in Hq, Hstate. fold self' in Hq, Hstate, Hobs.
  assert (Hlen : length object_pos = 3%nat).
  { rewrite <- Hpos, sample_length, length_combine, Hlo, Hhi. reflexivity. }
  split; [apply doubles_unit, Hunit|].
  split; [rewrite Hq; apply getslice_prefix; reflexivity|].
  split; [rewrite Hq; apply getslice_middle; [reflexivity | exact Hlen]|].
  split.
  { rewrite Hq, app_assoc. apply getslice_middle.
    - rewrite length_app, Hlen. reflexivity.
    - reflexivity. }
  assert (Hdata : data self' = mj_forward sim (model self)
                    (set_qpos (data self)
                       ([0; 0; 0; 0; 0; 0] ++ object_pos ++ [1; 0; 0; 0]
                          ++ skipn 13 (qpos (data self)))))
    by (rewrite Hstate; reflexivity).
  split; [exact Hdata|].
  split; [rewrite Hdata, (forward_time forward_ok); reflexivity|].
  split; [rewrite Hdata, (forward_qvel forward_ok); reflexivity|].
  exact Hobs.
Qed.




(** What [reset] wrote does not depend on what lay behind it. *)
Lemma written_prefix (pos rest : np.ndarray) :
  length pos = 3%nat \/ rest = [] ->
  np.getslice ([0; 0; 0; 0; 0; 0] ++ pos ++ [1; 0; 0; 0] ++ rest) 0 13
  = firstn 13 ([0; 0; 0; 0; 0; 0] ++ pos ++ [1; 0; 0; 0]).
Proof.
  intros H. unfold np.getslice. cbn [skipn Nat.sub].
  replace ([0; 0; 0; 0; 0; 0] ++ pos ++ [1; 0; 0; 0] ++ rest)
    with (([0; 0; 0; 0; 0; 0] ++ pos ++ [1; 0; 0; 0]) ++ rest)
    by (rewrite <- !app_assoc; reflexivity).
  destruct H as [H| ->].
  - rewrite firstn_app.
    replace (Nat.sub 13 (length ([0; 0; 0; 0; 0; 0] ++ pos ++ [1; 0; 0; 0]))) with 0%nat
      by (rewrite !length_app, H; reflexivity).
    rewrite firstn_O. apply app_nil_r.
  - rewrite app_nil_r. reflexivity.
Qed.

Lemma written_object (pos rest : np.ndarray) :
  length pos = 3%nat \/ rest = [] ->
  np.getslice ([0; 0; 0; 0; 0; 0] ++ pos ++ [1; 0; 0; 0] ++ rest) 6 9
  = firstn 3 (pos ++ [1; 0; 0; 0]).
Proof.
  intros H. unfold np.getslice.
  change (skipn 6 ([0; 0; 0; 0; 0; 0] ++ pos ++ [1; 0; 0; 0] ++ rest))
    with (pos ++ [1; 0; 0; 0] ++ rest).
  change (9 - 6)%nat with 3%nat.
  destruct H as [H| ->].
  - rewrite !firstn_app, H. reflexivity.
  - rewrite app_nil_r. reflexivity.
Qed.

(** C10.  [reset] is deterministic given the seed: two environments with
    the same sampling range, whatever their simulator states and
    generators, that are reset with the same seed sample the same object
    position and write the same position coordinates 0 to 12; their
    generators are in the same state afterwards. *)
Theorem reset_deterministic_given_seed
        (self1 self2 : Env) (seed : N) (options1 options2 : option Options)
        (obs1 obs2 : Observation) (info1 info2 : Info base) :
  object_low self1 = object_low self2 ->
  object_high self1 = object_high self2 ->
  fst (reset sim base (Some seed) options1 self1) = Ok (obs1, info1) ->
  fst (reset sim base (Some seed) options2 self2) = Ok (obs2, info2) ->
  let self1' := snd (reset sim base (Some seed) options1 self1) in
  let self2' := snd (reset sim base (Some seed) options2 self2) in
  np.getslice (qpos (data self1')) 0 13 = np.getslice (qpos (data self2')) 0 13 /\
  object_qpos obs1 = object_qpos obs2 /\
  arm_qpos obs1 = arm_qpos obs2 /\
  np_random self1' = np_random self2'.
Proof.
  intros Hlo Hhi H1 H2 self1' self2'.
  pose proof (reset_qpos _ _ _ H1) as (b1 & Hb1 & Hq1 & Hp1).
  pose proof (reset_qpos _ _ _ H2) as (b2 & Hb2 & Hq2 & Hp2).
  pose proof (reset_returns _ _ _ _ _ H1) as (b1' & Hb1' & _ & _ & Hs1 & Ho1 & _).
  pose proof (reset_returns _ _ _ _ _ H2) as (b2' & Hb2' & _ & _ & Hs2 & Ho2 & _).
  rewrite Hb1 in Hb1'. injection Hb1' as <-.
  rewrite Hb2 in Hb2'. injection Hb2' as <-.
  rewrite Hlo, Hhi, Hb2 in Hb1. injection Hb1 as <-.
  cbn zeta in *. cbn [reseeded] in *.
  fold self1' in Hq1, Hs1, Ho1. fold self2' in Hq2, Hs2, Ho2.
  set (pos := fst (Generator.sample G b2 (seed_bitgen G seed))) in *.
  split; [rewrite Hq1, Hq2, !written_prefix by assumption; reflexivity|].
  unfold get_observation_dict_one_object, gets in Ho1, Ho2. cbn [fst] in Ho1, Ho2.
  injection Ho1 as <-. injection Ho2 as <-. cbn [object_qpos arm_qpos].
  split; [|split].
  - rewrite Hq1, Hq2, !written_object by assumption. reflexivity.
  - rewrite Hq1, Hq2. reflexivity.
  - rewrite Hs1, Hs2. reflexivity.
Qed.








End ResetProperties.

(** ** Shapes of observations *)


Section ShapeProperties.

Variable G : BitGenerator.
Variable sim : Simulator.
Variable base : BaseRobotEnvParams.
Let Env := ReachCubeEnv G.


End ShapeProperties.

(** ** The reference instance *)

Lemma reference_unit_doubles : unit_doubles reference_bitgen.
Proof.
  intros g. simpl. destruct (N.even g); simpl; lra.
Qed.

Lemma reference_forward : forward_is_kinematic reference_sim.
Proof. split; reflexivity. Qed.






(** *** Runs of the reference instance *)

Lemma step_terminated_iff_within_threshold_witness :
  exists obs reward terminated info,
    fst (step reference_sim reference_base [2; 0; 0; 0; 0] fresh_env)
    = Ok (obs, reward, terminated, false, info) /\
    let self' := snd (step reference_sim reference_base [2; 0; 0; 0; 0] fresh_env) in
    self' = snd (base_step_action_nograsp reference_sim reference_base [2; 0; 0; 0; 0] fresh_env) /\
    exists distance,
      distance_to_cube (model self') (data self') = Ok distance /\
      (terminated = true <-> distance < 0.01).
Proof.
  do 4 eexists. split; [reflexivity|].
  eapply (@step_terminated_iff_within_threshold reference_bitgen reference_sim reference_base
            fresh_env [2; 0; 0; 0; 0]); [apply reach_init | reflexivity].
Defined.


Lemma step_truncated_false_witness :
  exists obs reward terminated truncated info,
    fst (step reference_sim reference_base [2; 0; 0; 0; 0] fresh_env)
    = Ok (obs, reward, terminated, truncated, info) /\
    truncated = false.
Proof.
  do 5 eexists. split; [reflexivity|].
  eapply (@step_truncated_false reference_bitgen reference_sim reference_base
            fresh_env [2; 0; 0; 0; 0]). reflexivity.
Defined.

Lemma step_reward_nonpositive_witness :
  exists obs reward terminated info,
    fst (step reference_sim reference_base [2; 0; 0; 0; 0] spinning_env)
    = Ok (obs, reward, terminated, false, info) /\
    reward <= 0.
Proof.
  do 4 eexists. split; [reflexivity|].
  eapply (@step_reward_nonpositive reference_bitgen reference_sim reference_base
            spinning_env [2; 0; 0; 0; 0]). reflexivity.
Defined.

Lemma step_clips_action_witness :
  let action := [2; -3; 0.5; 0; 0] in
  let clipped := np.clip action (-1) 1 in
  let self' := snd (base_step_action_nograsp reference_sim reference_base action fresh_env) in
  in_box (action_space fresh_env) clipped /\
  data self'
  = Nat.iter (n_substeps reference_base) (mj_step reference_sim (model fresh_env))
             (set_ctrl (data fresh_env) clipped) /\
  step reference_sim reference_base action fresh_env
  = step reference_sim reference_base clipped fresh_env /\
  (forall distance,
      distance_to_cube (model self') (data self') = Ok distance ->
      exists obs info,
        fst (step reference_sim reference_base action fresh_env)
        = Ok (obs, - distance, Rltb distance (threshold_distance fresh_env), false, info)).
Proof.
  apply (@step_clips_action reference_bitgen reference_sim reference_base
                            fresh_env [2; -3; 0.5; 0; 0]).
  apply reach_init.
Defined.

Lemma reset_neutral_pose_sampled_object_forward_only_witness :
  exists obs info,
    fst (reset reference_sim reference_base (Some 7%N) None spinning_env) = Ok (obs, info) /\
    let self' := snd (reset reference_sim reference_base (Some 7%N) None spinning_env) in
    let us := Generator.doubles reference_bitgen 3 7%N in
    let object_pos := uniform_image (object_low spinning_env) (object_high spinning_env) us in
    Forall (fun u => 0 <= u < 1) us /\
    np.getslice (qpos (data self')) 0 6 = [0; 0; 0; 0; 0; 0] /\
    np.getslice (qpos (data self')) 6 9 = object_pos /\
    np.getslice (qpos (data self')) 9 13 = [1; 0; 0; 0] /\
    data self' = mj_forward reference_sim (model spinning_env)
                   (set_qpos (data spinning_env)
                      ([0; 0; 0; 0; 0; 0] ++ object_pos ++ [1; 0; 0; 0]
                         ++ skipn 13 (qpos (data spinning_env)))) /\
    time (data self') = time (data spinning_env) /\
    qvel (data self') = qvel (data spinning_env) /\
    fst (get_observation_dict_one_object reference_sim self') = Ok obs.
Proof.
  do 2 eexists. split; [reflexivity|].
  eapply (@reset_neutral_pose_sampled_object_forward_only
           reference_bitgen reference_sim reference_base reference_forward
           spinning_env (Some 7%N) None).
  - exact reference_unit_doubles.
  - reflexivity.
  - reflexivity.
  - reflexivity.
Defined.



Lemma reset_deterministic_given_seed_witness :
  exists obs1 info1 obs2 info2,
    fst (reset reference_sim reference_base (Some 7%N) None fresh_env) = Ok (obs1, info1) /\
    fst (reset reference_sim reference_base (Some 7%N) None spinning_env) = Ok (obs2, info2) /\
    let self1' := snd (reset reference_sim reference_base (Some 7%N) None fresh_env) in
    let self2' := snd (reset reference_sim reference_base (Some 7%N) None spinning_env) in
    np.getslice (qpos (data self1')) 0 13 = np.getslice (qpos (data self2')) 0 13 /\
    object_qpos obs1 = object_qpos obs2 /\
    arm_qpos obs1 = arm_qpos obs2 /\
    np_random self1' = np_random self2'.
Proof.
  do 4 eexists. split; [reflexivity|]. split; [reflexivity|].
  eapply (@reset_deterministic_given_seed
           reference_bitgen reference_sim reference_base reference_forward
           fresh_env spinning_env 7%N None None).
  - reflexivity.
  - reflexivity.
  - reflexivity.
  - reflexivity.
Defined.


(** ** The distance in a scene with a hinge gripper *)

(** X1.  When the joint "gripper_opening" has a single coordinate [g] (a
    hinge) and the free joint of the cube is at [(x, y, z)], the distance
    that [step] computes is the norm of [(x - g, y - g, z - g)]: numpy
    repeats the one joint coordinate against the three coordinates of the
    cube. *)
Theorem distance_repeats_hinge_coordinate
        (m : MjModel) (d : MjData) (x y z qw qx qy qz g : R) :
  joint_qpos m d "red_box_joint" = Ok [x; y; z; qw; qx; qy; qz] ->
  joint_qpos m d "gripper_opening" = Ok [g] ->
  distance_to_cube m d = Ok (sqrt ((x - g)² + (y - g)² + (z - g)²)).
Proof.
  intros Hcube Hgripper.
  unfold distance_to_cube, cube_pos, ee_pos.
  rewrite Hcube, Hgripper. cbn [result_bind].
  change (np.subtract (np.getslice [x; y; z; qw; qx; qy; qz] 0 3) (np.getslice [g] 0 3))
    with (Ok [x - g; y - g; z - g]).
  cbn [result_bind]. unfold np.linalg_norm, np.sum_squares, Rsqr. cbn [fold_right].
  do 2 f_equal. ring.
Qed.

Lemma distance_repeats_hinge_coordinate_witness :
  distance_to_cube one_cube_model (data spinning_env)
  = Ok (sqrt ((0.1 - 0.5)² + (0.05 - 0.5)² + (0.05 - 0.5)²)).
Proof.
  apply (@distance_repeats_hinge_coordinate one_cube_model (data spinning_env)
                                            0.1 0.05 0.05 1 0 0 0 0.5); reflexivity.
Defined.


(** ** Further properties of the calls *)

(** *** The stream of doubles *)

Section Stream.

Variable G : BitGenerator.

Lemma doubles_length (n : nat) (g : bitgen G) :
  length (Generator.doubles G n g) = n.
Proof.
  revert g. induction n as [|n IH]; intros g; simpl.
  - reflexivity.
  - destruct (next_double G g) as [u g1]. simpl. now rewrite IH.
Qed.

Lemma sample_advance (bounds : list (R * R)) (g : bitgen G) :
  snd (Generator.sample G bounds g) = advance G (length bounds) g.
Proof.
  revert g. induction bounds as [|[lo hi] rest IH]; intros g; simpl.
  - reflexivity.
  - specialize (IH (snd (next_double G g))).
    destruct (next_double G g) as [u g1]. simpl in *.
    destruct (Generator.sample G rest g1) as [xs g2]. simpl in *. exact IH.
Qed.

Lemma doubles_app (n m : nat) (g : bitgen G) :
  Generator.doubles G (n + m) g
  = Generator.doubles G n g ++ Generator.doubles G m (advance G n g).
Proof.
  revert g. induction n as [|n IH]; intros g; simpl.
  - reflexivity.
  - specialize (IH (snd (next_double G g))).
    destruct (next_double G g) as [u g1]. simpl in *. now rewrite IH.
Qed.

End Stream.

(** *** Sums of squares *)

Lemma sum_squares_zero (a : np.ndarray) :
  np.sum_squares a = 0 <-> Forall (fun x => x = 0) a.
Proof.
  induction a as [|x a IH]; simpl.
  - split; [constructor | reflexivity].
  - pose proof (sum_squares_nonneg a) as Ha.
    pose proof (Rle_0_sqr x) as Hx. unfold Rsqr in Hx.
    split.
    + intros H. assert (Hxx : x * x = 0) by lra.
      assert (Hs : np.sum_squares a = 0) by lra.
      constructor; [|apply IH, Hs].
      destruct (Rmult_integral _ _ Hxx); assumption.
    + intros H. inversion H as [|y ys Hy Hys]; subst.
      apply IH in Hys. rewrite Hys. lra.
Qed.

Lemma linalg_norm_zero (a : np.ndarray) :
  np.linalg_norm a = 0 <-> Forall (fun x => x = 0) a.
Proof.
  rewrite <- sum_squares_zero. unfold np.linalg_norm. split.
  - intros H. apply sqrt_eq_0; [apply sum_squares_nonneg | exact H].
  - intros ->. apply sqrt_0.
Qed.

(** *** [step] *)

(** Coordinate vectors of one or three entries subtract without error. *)
Lemma subtract_one_or_three (a b : np.ndarray) :
  length a = 1%nat \/ length a = 3%nat ->
  length b = 1%nat \/ length b = 3%nat ->
  exists diff, np.subtract a b = Ok diff.
Proof.
  intros Ha Hb.
  destruct a as [|a1 [|a2 [|a3 [|a4 a]]]]; simpl in Ha;
    try (exfalso; destruct Ha; discriminate);
    destruct b as [|b1 [|b2 [|b3 [|b4 b]]]]; simpl in Hb;
      try (exfalso; destruct Hb; discriminate);
      eexists; reflexivity.
Qed.

(** The first three coordinates of a joint's view: three for a free or a
    ball joint, one for a slide or a hinge. *)
Lemma joint_view_one_or_three (q : np.ndarray) (j : Joint) :
  (jnt_qposadr j + nq_of (jnt_type j) <= length q)%nat ->
  let view := np.getslice q (jnt_qposadr j) (jnt_qposadr j + nq_of (jnt_type j)) in
  length (np.getslice view 0 3) = 1%nat \/ length (np.getslice view 0 3) = 3%nat.
Proof.
  intros H view. unfold view. rewrite !getslice_length.
  destruct (jnt_type j); simpl nq_of in *; [right | right | left | left]; lia.
Qed.

Section StepFurther.

Variable G : BitGenerator.
Variable sim : Simulator.
Variable base : BaseRobotEnvParams.
Let Env := ReachCubeEnv G.

(** X3.  For every state reached from the constructor, a returning [step]
    reports termination exactly when the reward is above -0.01; at a
    reward of exactly -0.01 the episode goes on. *)
Theorem step_terminated_iff_reward_above
        (self : Env) (action : np.ndarray) (obs : Observation) (reward : R)
        (terminated truncated : bool) (info : Info base) :
  reachable sim base self ->
  fst (step sim base action self) = Ok (obs, reward, terminated, truncated, info) ->
  (terminated = true <-> - 0.01 < reward) /\
  (reward = - 0.01 -> terminated = false).
Proof.
  intros Hreach Hstep. apply step_returns in Hstep.
  destruct Hstep as (_ & dist & _ & -> & -> & _).
  rewrite (reachable_threshold Hreach).
  assert (Hiff : Rltb dist 0.01 = true <-> - 0.01 < - dist).
  { rewrite Rltb_true. split; intros; lra. }
  split; [exact Hiff|].
  intros Heq. destruct (Rltb dist 0.01) eqn:E; [|reflexivity].
  assert (dist < 0.01) by (apply Rltb_true; exact E). lra.
Qed.

(** X4.  The reward of a returning [step] is 0, its largest value, exactly
    when every coordinate of the cube position equals the end-effector
    coordinate it is paired with. *)
Theorem step_reward_zero_iff_positions_coincide
        (self : Env) (action : np.ndarray) (obs : Observation) (reward : R)
        (terminated truncated : bool) (info : Info base) :
  fst (step sim base action self) = Ok (obs, reward, terminated, truncated, info) ->
  let self' := snd (step sim base action self) in
  exists cube ee pairs,
    cube_pos (model self') (data self') = Ok cube /\
    ee_pos (model self') (data self') = Ok ee /\
    np.broadcast2 cube ee = Ok pairs /\
    (reward = 0 <-> Forall (fun p => fst p = snd p) pairs).
Proof.
  intros Hstep. apply step_returns in Hstep.
  destruct Hstep as (_ & dist & Hdist & -> & _).
  cbn zeta. unfold distance_to_cube in Hdist.
  destruct (cube_pos _ _) as [cube|]; [|discriminate].
  destruct (ee_pos _ _) as [e|]; [|discriminate].
  cbn [result_bind] in Hdist. unfold np.subtract in Hdist.
  destruct (np.broadcast2 cube e) as [pairs|] eqn:Hpairs; [|discriminate].
  cbn [result_bind] in Hdist. injection Hdist as <-.
  exists cube, e, pairs. repeat split; try reflexivity; try assumption.
  - intros H. assert (Hz : np.linalg_norm (map (fun p => fst p - snd p) pairs) = 0) by lra.
    apply linalg_norm_zero in Hz. rewrite Forall_map in Hz.
    eapply Forall_impl; [|exact Hz]. simpl. intros p Hp. lra.
  - intros H.
    assert (Hz : np.linalg_norm (map (fun p => fst p - snd p) pairs) = 0).
    { apply linalg_norm_zero. rewrite Forall_map.
      eapply Forall_impl; [|exact H]. simpl. intros p Hp. lra. }
    lra.
Qed.

(** X5.  [step] changes the object only by performing the action: whether
    it returns or raises, the state it leaves is the one the action and the
    simulation advance produced.  In a scene without the joint
    "red_box_joint" it raises a KeyError for that name, and in a scene with
    that joint but without "gripper_opening" a KeyError for the latter,
    in both cases after the simulation was advanced. *)
Theorem step_raises_after_advancing (self : Env) (action : np.ndarray) :
  let has name := find (fun j => String.eqb (jnt_name j) name) (jnt (model self)) in
  snd (step sim base action self) = snd (base_step_action_nograsp sim base action self) /\
  (has "red_box_joint"%string = None ->
   fst (step sim base action self) = Raise (KeyError "red_box_joint")) /\
  (has "red_box_joint"%string <> None -> has "gripper_opening"%string = None ->
   fst (step sim base action self) = Raise (KeyError "gripper_opening")).
Proof.
  cbn zeta.
  unfold step, get_observation_dict_one_object, base_step_action_nograsp, data_joint_qpos,
    bind, modify, gets, ret, lift.
  cbn [fst snd].
  set (s1 := set_data self _).
  assert (Hm : model s1 = model self) by reflexivity.
  unfold joint_qpos. rewrite Hm.
  destruct (find (fun j => String.eqb (jnt_name j) "red_box_joint") (jnt (model self)))
    as [jc|]; cbn [fst snd].
  - destruct (find (fun j => String.eqb (jnt_name j) "gripper_opening") (jnt (model self)))
      as [jg|]; cbn [fst snd].
    + destruct (np.subtract _ _); cbn [fst snd];
        (split; [reflexivity|]); (split; [discriminate|]); intros _; discriminate.
    + split; [reflexivity|]. split; [discriminate|]. reflexivity.
  - split; [reflexivity|]. split; [reflexivity|]. intros H. contradiction.
Qed.

(** X6.  [step] returns, whatever the action, whenever the scene has the
    joints "red_box_joint" and "gripper_opening" and their coordinates lie
    within the position vector of the state it advanced to: the
    subtraction of the two positions never fails to broadcast, because a
    joint has one, four or seven coordinates. *)
Theorem step_returns_on_scene_with_both_joints
        (self : Env) (action : np.ndarray) (cube gripper : Joint) :
  let self' := snd (base_step_action_nograsp sim base action self) in
  find (fun j => String.eqb (jnt_name j) "red_box_joint") (jnt (model self)) = Some cube ->
  find (fun j => String.eqb (jnt_name j) "gripper_opening") (jnt (model self)) = Some gripper ->
  (jnt_qposadr cube + nq_of (jnt_type cube) <= length (qpos (data self')))%nat ->
  (jnt_qposadr gripper + nq_of (jnt_type gripper) <= length (qpos (data self')))%nat ->
  exists obs reward terminated info,
    fst (step sim base action self) = Ok (obs, reward, terminated, false, info).
Proof.
  intros self' Hcube Hgripper Hc Hg.
  pose proof (joint_view_one_or_three _ _ Hc) as Lc.
  pose proof (joint_view_one_or_three _ _ Hg) as Lg.
  cbn zeta in Lc, Lg.
  destruct (subtract_one_or_three _ _ Lc Lg) as [diff Hdiff].
  assert (Hdist : distance_to_cube (model self') (data self') = Ok (np.linalg_norm diff)).
  { unfold distance_to_cube, cube_pos, ee_pos, joint_qpos.
    change (model self') with (model self).
    rewrite Hcube, Hgripper. cbn [result_bind]. rewrite Hdiff. reflexivity. }
  destruct (@step_total G sim base self action _ Hdist) as (obs & info & Hstep).
  eauto.
Qed.

End StepFurther.

(** *** [reset] *)

Lemma broadcast2_raises_value_error (a b : np.ndarray) (e : exn) :
  np.broadcast2 a b = Raise e -> exists msg, e = ValueError msg.
Proof.
  unfold np.broadcast2. destruct (Nat.eqb (length a) (length b)); [discriminate|].
  destruct a as [|x [|x' a]]; destruct b as [|y [|y' b]]; try discriminate;
    intros [= <-]; eexists; reflexivity.
Qed.

Lemma setslice_raises_value_error (a v : np.ndarray) (i j : nat) (e : exn) :
  np.setslice a i j v = Raise e -> exists msg, e = ValueError msg.
Proof.
  unfold np.setslice.
  destruct (Nat.eqb (length v) (length (np.getslice a i j))); [discriminate|].
  destruct v as [|x [|x' v]]; try discriminate; intros [= <-]; eexists; reflexivity.
Qed.

(** A value of two or more elements is stored exactly when it has the
    length of the slice. *)
Lemma setslice_long_returns (a v : np.ndarray) (i j : nat) :
  (2 <= length v)%nat ->
  (exists a', np.setslice a i j v = Ok a') <-> length v = length (np.getslice a i j).
Proof.
  intros Hv. split.
  - intros [a' H]. eapply setslice_long; eassumption.
  - intros H. unfold np.setslice. rewrite H, Nat.eqb_refl. eexists. reflexivity.
Qed.

Section ResetFurther.

Variable G : BitGenerator.
Variable sim : Simulator.
Variable base : BaseRobotEnvParams.
Let Env := ReachCubeEnv G.

(** The four ways a [reset] can go. *)
Lemma reset_outcome (self : Env) (seed : option N) (options : option Options) :
  let r := reset sim base seed options self in
  let nq := length (qpos (data self)) in
  let zeroed := set_qpos (data self) ([0; 0; 0; 0; 0; 0] ++ skipn 6 (qpos (data self))) in
  ((nq < 6)%nat /\
   (exists msg, fst r = Raise (ValueError msg)) /\
   data (snd r) = data self /\
   np_random (snd r) = reseeded self seed)
  \/
  ((6 <= nq)%nat /\
   (exists msg, np.broadcast2 (object_low self) (object_high self) = Raise (ValueError msg) /\
                fst r = Raise (ValueError msg)) /\
   data (snd r) = zeroed /\
   np_random (snd r) = reseeded self seed)
  \/
  ((6 <= nq)%nat /\
   (exists bounds msg,
       np.broadcast2 (object_low self) (object_high self) = Ok bounds /\
       (length bounds + 4)%nat <> Nat.min 7 (nq - 6) /\
       fst r = Raise (ValueError msg) /\
       np_random (snd r) = advance G (length bounds) (reseeded self seed)) /\
   data (snd r) = zeroed)
  \/
  ((6 <= nq)%nat /\
   exists bounds obs info,
     np.broadcast2 (object_low self) (object_high self) = Ok bounds /\
     (length bounds + 4)%nat = Nat.min 7 (nq - 6) /\
     fst r = Ok (obs, info)).
Proof.
  cbn zeta.
  unfold reset, get_observation_dict_one_object, bind, super_reset, modify, gets, ret,
    np_random_uniform, assign_qpos, Generator.uniform.
  cbn [fst snd].
  set (s0 := match seed with Some s => set_np_random self (seed_bitgen G s) | None => self end).
  assert (Hd : data s0 = data self) by (destruct seed; reflexivity).
  assert (Hlo : object_low s0 = object_low self) by (destruct seed; reflexivity).
  assert (Hhi : object_high s0 = object_high self) by (destruct seed; reflexivity).
  assert (Hg : np_random s0 = reseeded self seed) by (destruct seed; reflexivity).
  rewrite Hd.
  destruct (np.setslice (qpos (data self)) 0 6 [0; 0; 0; 0; 0; 0]) as [q1|e1] eqn:E1;
    cbn [fst snd].
  2:{ left. destruct (setslice_raises_value_error _ _ _ _ E1) as [msg ->].
      assert (Hnq : (length (qpos (data self)) < 6)%nat).
      { destruct (Nat.lt_ge_cases (length (qpos (data self))) 6) as [H|H]; [exact H|].
        exfalso.
        assert (Hex : exists a', np.setslice (qpos (data self)) 0 6 [0; 0; 0; 0; 0; 0] = Ok a').
        { apply setslice_long_returns; [simpl; lia|]. rewrite getslice_length.
          change (length [0; 0; 0; 0; 0; 0]) with 6%nat. lia. }
        destruct Hex as [a' Ha']. rewrite Ha' in E1. discriminate. }
      repeat split; [exact Hnq | eexists; reflexivity | exact Hd | exact Hg]. }
  right.
  apply setslice_neutral in E1. destruct E1 as [-> Hnq].
  cbn [object_low object_high np_random set_data]. rewrite Hlo, Hhi, Hg.
  destruct (np.broadcast2 (object_low self) (object_high self)) as [bounds|e2] eqn:E2;
    cbn [fst snd result_bind].
  2:{ left. destruct (broadcast2_raises_value_error _ _ E2) as [msg ->].
      repeat split; [exact Hnq | eexists; split; reflexivity | ].
      cbn [np_random set_data]. exact Hg. }
  right.
  pose proof (sample_advance G bounds (reseeded self seed)) as Hadv.
  pose proof (sample_length G bounds (reseeded self seed)) as Hlen.
  destruct (Generator.sample G bounds (reseeded self seed)) as [pos g1].
  cbn [fst snd] in Hadv, Hlen. subst g1.
  cbn [fst snd data qpos set_data set_qpos set_np_random].
  unfold np.concatenate, np.astype_float32. cbn [concat]. rewrite app_nil_r.
  assert (Hslice : length (np.getslice ([0; 0; 0; 0; 0; 0] ++ skipn 6 (qpos (data self))) 6 13)
                   = Nat.min 7 (length (qpos (data self)) - 6)).
  { rewrite getslice_length, length_app, length_skipn.
    change (length [0; 0; 0; 0; 0; 0]) with 6%nat. lia. }
  assert (Hv : length (pos ++ [1; 0; 0; 0]) = (length bounds + 4)%nat).
  { rewrite length_app, Hlen. reflexivity. }
  destruct (np.setslice ([0; 0; 0; 0; 0; 0] ++ skipn 6 (qpos (data self))) 6 13
                        (pos ++ [1; 0; 0; 0])) as [q2|e4] eqn:E4;
    cbn [fst snd].
  - right. split; [exact Hnq|]. exists bounds. do 2 eexists.
    split; [reflexivity|]. split; [|reflexivity].
    rewrite <- Hslice, <- Hv.
    apply setslice_long in E4; [|rewrite Hv; lia]. destruct E4 as [E4 _]. exact E4.
  - left. destruct (setslice_raises_value_error _ _ _ _ E4) as [msg ->].
    split; [exact Hnq|]. split; [|reflexivity].
    exists bounds, msg. split; [reflexivity|]. split; [|split; reflexivity].
    rewrite <- Hslice, <- Hv. intros Heq.
    assert (Hex : exists a', np.setslice ([0; 0; 0; 0; 0; 0] ++ skipn 6 (qpos (data self)))
                                         6 13 (pos ++ [1; 0; 0; 0]) = Ok a').
    { apply setslice_long_returns; [rewrite Hv; lia | exact Heq]. }
    destruct Hex as [a' Ha']. rewrite Ha' in E4. discriminate.
Qed.



End ResetFurther.

Section ResetWithForwardContract.

Variable G : BitGenerator.
Variable sim : Simulator.
Variable base : BaseRobotEnvParams.
Let Env := ReachCubeEnv G.

(** The engine's contract for the forward pass is a premise of every
    statement of this section. *)
Hypothesis forward_ok : forward_is_kinematic sim.

(** What a returning [reset] over a three-dimensional range leaves and
    returns. *)
Lemma reset_three_dimensional
      (self : Env) (seed : option N) (options : option Options)
      (obs : Observation) (info : Info base) :
  length (object_low self) = 3%nat ->
  length (object_high self) = 3%nat ->
  fst (reset sim base seed options self) = Ok (obs, info) ->
  let self' := snd (reset sim base seed options self) in
  let object_pos := uniform_image (object_low self) (object_high self)
                                  (Generator.doubles G 3 (reseeded self seed)) in
  length object_pos = 3%nat /\
  qpos (data self')
  = [0; 0; 0; 0; 0; 0] ++ object_pos ++ [1; 0; 0; 0] ++ skipn 13 (qpos (data self)) /\
  object_qpos obs = object_pos /\
  np_random self' = advance G 3 (reseeded self seed) /\
  object_low self' = object_low self /\
  object_high self' = object_high self.
Proof.
  intros Hlo Hhi Hreset self' object_pos.
  pose proof (@reset_qpos G sim base forward_ok self seed options obs info Hreset)
    as (bounds & Hb & Hq & _).
  pose proof (@reset_returns G sim base self seed options obs info Hreset)
    as (bounds' & Hb' & _ & _ & Hstate & Hobs & _).
  rewrite Hb in Hb'. injection Hb' as <-.
  apply broadcast2_same_length in Hb; [|congruence]. subst bounds.
  assert (Hpos : fst (Generator.sample G (combine (object_low self) (object_high self))
                                       (reseeded self seed)) = object_pos).
  { rewrite sample_doubles, length_combine, Hlo, Hhi. reflexivity. }
  assert (Hlen : length object_pos = 3%nat).
  { rewrite <- Hpos, sample_length, length_combine, Hlo, Hhi. reflexivity. }
  cbn zeta in Hq, Hstate. rewrite Hpos in Hq. fold self' in Hq, Hstate, Hobs.
  destruct (keeps_reset sim base seed options self) as (_ & _ & _ & _ & _ & Klo & Khi).
  fold self' in Klo, Khi.
  split; [exact Hlen|]. split; [exact Hq|]. split; [|split; [|split; assumption]].
  - unfold get_observation_dict_one_object, gets in Hobs. cbn [fst] in Hobs.
    injection Hobs as <-. cbn [object_qpos]. rewrite Hq.
    apply getslice_middle; [reflexivity | exact Hlen].
  - rewrite Hstate. cbn [np_random set_data set_np_random].
    rewrite sample_advance, length_combine, Hlo, Hhi. reflexivity.
Qed.

(** With thirteen coordinates and a three-dimensional range a [reset]
    returns, and so does the next one. *)
Lemma reset_roomy (self : Env) (seed : option N) (options : option Options) :
  (13 <= length (qpos (data self)))%nat ->
  length (object_low self) = 3%nat ->
  length (object_high self) = 3%nat ->
  exists obs info, fst (reset sim base seed options self) = Ok (obs, info).
Proof.
  intros Hnq Hlo Hhi.
  assert (Hb : np.broadcast2 (object_low self) (object_high self)
               = Ok (combine (object_low self) (object_high self))).
  { unfold np.broadcast2. rewrite Hlo, Hhi. reflexivity. }
  assert (Hlen : length (combine (object_low self) (object_high self)) = 3%nat)
    by (rewrite length_combine, Hlo, Hhi; reflexivity).
  destruct (reset_outcome sim base self seed options)
    as [(H & _)
       |[(_ & (msg & Hb' & _) & _)
        |[(_ & (bounds & msg & Hb' & Hne & _) & _)
         |(_ & bounds & obs & info & _ & _ & Hr)]]]; cbn zeta in *.
  - exfalso. lia.
  - rewrite Hb in Hb'. discriminate.
  - rewrite Hb in Hb'. injection Hb' as <-. exfalso. rewrite Hlen in Hne. lia.
  - eauto.
Qed.

Lemma reset_twice_returns
      (self : Env) (seed : option N) (options1 options2 : option Options)
      (obs1 : Observation) (info1 : Info base) :
  (13 <= length (qpos (data self)))%nat ->
  length (object_low self) = 3%nat ->
  length (object_high self) = 3%nat ->
  fst (reset sim base seed options1 self) = Ok (obs1, info1) ->
  exists obs2 info2,
    fst (reset sim base None options2 (snd (reset sim base seed options1 self)))
    = Ok (obs2, info2).
Proof.
  intros Hnq Hlo Hhi H1.
  pose proof (@reset_qpos G sim base forward_ok self seed options1 obs1 info1 H1)
    as (bounds & Hb & Hq & _).
  pose proof (@reset_returns G sim base self seed options1 obs1 info1 H1)
    as (bounds' & Hb' & Hlen & _).
  rewrite Hb in Hb'. injection Hb' as <-. cbn zeta in Hq, Hlen.
  destruct (keeps_reset sim base seed options1 self) as (_ & _ & _ & _ & _ & Klo & Khi).
  apply reset_roomy.
  - rewrite Hq, Hlen. exact Hnq.
  - rewrite Klo. exact Hlo.
  - rewrite Khi. exact Hhi.
Qed.

(** X9.  A returning [reset] writes the first thirteen position
    coordinates only: the position vector keeps its length, and the
    coordinates from index 13 on, those of any further body of the scene,
    are as they were before the call. *)
Theorem reset_writes_first_thirteen_only
        (self : Env) (seed : option N) (options : option Options)
        (obs : Observation) (info : Info base) :
  fst (reset sim base seed options self) = Ok (obs, info) ->
  let self' := snd (reset sim base seed options self) in
  length (qpos (data self')) = length (qpos (data self)) /\
  skipn 13 (qpos (data self')) = skipn 13 (qpos (data self)).
Proof.
  intros Hreset self'.
  pose proof (@reset_qpos G sim base forward_ok self seed options obs info Hreset)
    as (bounds & Hb & Hq & Hp).
  pose proof (@reset_returns G sim base self seed options obs info Hreset)
    as (bounds' & Hb' & Hlen & _).
  rewrite Hb in Hb'. injection Hb' as <-.
  cbn zeta in Hq, Hp, Hlen. fold self' in Hq.
  set (pos := fst (Generator.sample G bounds (reseeded self seed))) in *.
  split; [rewrite Hq; exact Hlen|].
  rewrite Hq.
  replace ([0; 0; 0; 0; 0; 0] ++ pos ++ [1; 0; 0; 0] ++ skipn 13 (qpos (data self)))
    with (([0; 0; 0; 0; 0; 0] ++ pos ++ [1; 0; 0; 0]) ++ skipn 13 (qpos (data self)))
    by (rewrite <- !app_assoc; reflexivity).
  assert (Hw : length ([0; 0; 0; 0; 0; 0] ++ pos ++ [1; 0; 0; 0]) = (10 + length pos)%nat).
  { rewrite !length_app. simpl. lia. }
  destruct Hp as [Hp|Hp].
  - rewrite skipn_app, Hw, Hp. change (13 - (10 + 3))%nat with 0%nat.
    rewrite skipn_all2 by (rewrite Hw, Hp; lia). reflexivity.
  - rewrite Hp, app_nil_r. apply skipn_all2.
    rewrite !length_app, Hp in Hlen. simpl in Hlen.
    rewrite Hw. pose proof (length_skipn 13 (qpos (data self))) as Hs.
    rewrite Hp in Hs. simpl in Hs. lia.
Qed.

(** X10.  A [reset] without a seed goes on in the stream of the generator:
    after a reset with seed [s], the object position of a following reset
    without a seed is the sample over the fourth to sixth double of the
    stream seeded by [s], the first having used the first three. *)
Theorem reset_without_seed_continues_stream
        (self : Env) (seed : N) (options1 options2 : option Options)
        (obs1 obs2 : Observation) (info1 info2 : Info base) :
  length (object_low self) = 3%nat ->
  length (object_high self) = 3%nat ->
  fst (reset sim base (Some seed) options1 self) = Ok (obs1, info1) ->
  let self1 := snd (reset sim base (Some seed) options1 self) in
  fst (reset sim base None options2 self1) = Ok (obs2, info2) ->
  let self2 := snd (reset sim base None options2 self1) in
  let us := Generator.doubles G 6 (seed_bitgen G seed) in
  object_qpos obs1 = uniform_image (object_low self) (object_high self) (firstn 3 us) /\
  object_qpos obs2 = uniform_image (object_low self) (object_high self) (skipn 3 us) /\
  np_random self2 = advance G 6 (seed_bitgen G seed).
Proof.
  intros Hlo Hhi H1 self1 H2 self2 us.
  destruct (reset_three_dimensional _ _ _ Hlo Hhi H1) as (_ & _ & Ho1 & Hg1 & Klo & Khi).
  fold self1 in Hg1, Klo, Khi.
  assert (Hlo1 : length (object_low self1) = 3%nat) by (rewrite Klo; exact Hlo).
  assert (Hhi1 : length (object_high self1) = 3%nat) by (rewrite Khi; exact Hhi).
  destruct (reset_three_dimensional _ _ _ Hlo1 Hhi1 H2) as (_ & _ & Ho2 & Hg2 & _).
  fold self2 in Hg2. cbn [reseeded] in *. rewrite Klo, Khi, Hg1 in Ho2. rewrite Hg1 in Hg2.
  assert (Hus : us = Generator.doubles G 3 (seed_bitgen G seed)
                     ++ Generator.doubles G 3 (advance G 3 (seed_bitgen G seed))).
  { unfold us. apply (doubles_app G 3 3). }
  assert (Hn : length (Generator.doubles G 3 (seed_bitgen G seed)) = 3%nat)
    by apply doubles_length.
  split; [|split].
  - rewrite Ho1, Hus, firstn_app, Hn. change (3 - 3)%nat with 0%nat.
    rewrite firstn_O, app_nil_r, firstn_all2 by (rewrite Hn; lia). reflexivity.
  - rewrite Ho2, Hus, skipn_app, Hn. change (3 - 3)%nat with 0%nat.
    rewrite skipn_all2 by (rewrite Hn; lia). reflexivity.
  - rewrite Hg2. clear. generalize (seed_bitgen G seed). intros g. reflexivity.
Qed.

(** X11.  After a returning [reset] over a three-dimensional range,
    [get_observation] returns eight numbers, the six zeros of the arm
    followed by the x and the y of the sampled object position: the height
    of the object is not part of it.  It does not change the object. *)
Theorem get_observation_after_reset
        (self : Env) (seed : option N) (options : option Options)
        (obs : Observation) (info : Info base) :
  length (object_low self) = 3%nat ->
  length (object_high self) = 3%nat ->
  fst (reset sim base seed options self) = Ok (obs, info) ->
  let self' := snd (reset sim base seed options self) in
  get_observation self' = (Ok ([0; 0; 0; 0; 0; 0] ++ firstn 2 (object_qpos obs)), self') /\
  length (object_qpos obs) = 3%nat.
Proof.
  intros Hlo Hhi Hreset self'.
  destruct (reset_three_dimensional _ _ _ Hlo Hhi Hreset) as (Hlen & Hq & Ho & _).
  fold self' in Hq. rewrite Ho.
  set (object_pos := uniform_image _ _ _) in *.
  split; [|exact Hlen].
  unfold get_observation, gets, np.astype_float32. rewrite Hq.
  destruct object_pos as [|x [|y [|z [|w rest]]]]; try discriminate.
  reflexivity.
Qed.

End ResetWithForwardContract.

(** *** The configuration *)

Section Configuration.

Variable G : BitGenerator.
Variable sim : Simulator.
Variable base : BaseRobotEnvParams.

(** X12.  No call changes the configuration.  In every state an
    environment goes through, after any sequence of [reset], [step] and
    [get_observation] calls, returning or raising, the threshold is 0.01,
    the observation space is the declared one, the action bounds are -1 and
    1, the scene is the one loaded from "scene_one_cube.xml", and the
    sampling range is the one set from the constructor's [obj_xy_range]. *)
Theorem configuration_is_invariant (self : ReachCubeEnv G) :
  reachable sim base self ->
  threshold_distance self = 0.01 /\
  observation_space self = spaces /\
  low (action_space self) = -1 /\
  high (action_space self) = 1 /\
  model self = from_xml_path sim (scene_xml base) /\
  exists obj_xy_range,
    object_low self = fst (set_object_range base obj_xy_range) /\
    object_high self = snd (set_object_range base obj_xy_range).
Proof.
  intros Hreach.
  destruct (reachable_config Hreach) as (i & a & r & o & C).
  destruct C as (C1 & C2 & C3 & C4 & C5 & C6 & C7).
  cbn [model action_mode action_space observation_space threshold_distance
             object_low object_high __init__] in *.
  repeat split; try assumption.
  - rewrite C3. reflexivity.
  - rewrite C3. reflexivity.
  - exists o. split; assumption.
Qed.

End Configuration.

(** *** Further runs of the reference instance *)

Lemma step_terminated_iff_reward_above_witness :
  exists obs reward terminated info,
    fst (step reference_sim reference_base [2; 0; 0; 0; 0] fresh_env)
    = Ok (obs, reward, terminated, false, info) /\
    (terminated = true <-> - 0.01 < reward) /\
    (reward = - 0.01 -> terminated = false).
Proof.
  do 4 eexists. split; [reflexivity|].
  eapply (@step_terminated_iff_reward_above reference_bitgen reference_sim reference_base
            fresh_env [2; 0; 0; 0; 0]); [apply reach_init | reflexivity].
Defined.

Lemma step_reward_zero_iff_positions_coincide_witness :
  exists obs reward terminated info,
    fst (step reference_sim reference_base [2; 0; 0; 0; 0] spinning_env)
    = Ok (obs, reward, terminated, false, info) /\
    let self' := snd (step reference_sim reference_base [2; 0; 0; 0; 0] spinning_env) in
    exists cube ee pairs,
      cube_pos (model self') (data self') = Ok cube /\
      ee_pos (model self') (data self') = Ok ee /\
      np.broadcast2 cube ee = Ok pairs /\
      (reward = 0 <-> Forall (fun p => fst p = snd p) pairs).
Proof.
  do 4 eexists. split; [reflexivity|].
  eapply (@step_reward_zero_iff_positions_coincide reference_bitgen reference_sim
            reference_base spinning_env [2; 0; 0; 0; 0]). reflexivity.
Defined.

Lemma step_raises_after_advancing_witness :
  snd (step reference_sim reference_base [2; 0; 0; 0; 0] cubeless_env)
  = snd (base_step_action_nograsp reference_sim reference_base [2; 0; 0; 0; 0] cubeless_env) /\
  fst (step reference_sim reference_base [2; 0; 0; 0; 0] cubeless_env)
  = Raise (KeyError "red_box_joint").
Proof.
  destruct (@step_raises_after_advancing reference_bitgen reference_sim reference_base
              cubeless_env [2; 0; 0; 0; 0]) as (Hstate & Hcube & _).
  split; [exact Hstate|]. apply Hcube. reflexivity.
Defined.

Lemma step_returns_on_scene_with_both_joints_witness :
  exists obs reward terminated info,
    fst (step reference_sim reference_base [2; -3; 0.5; 0; 0] spinning_env)
    = Ok (obs, reward, terminated, false, info).
Proof.
  apply (@step_returns_on_scene_with_both_joints
           reference_bitgen reference_sim reference_base spinning_env [2; -3; 0.5; 0; 0]
           {| jnt_name := "red_box_joint"; jnt_type := mjJNT_FREE; jnt_qposadr := 6 |}
           (hinge "gripper_opening" 5)).
  - reflexivity.
  - reflexivity.
  - change (6 + 7 <= 13)%nat. lia.
  - change (5 + 1 <= 13)%nat. lia.
Defined.



Lemma reset_writes_first_thirteen_only_witness :
  exists obs info,
    fst (reset reference_sim reference_base (Some 7%N) None crowded_env) = Ok (obs, info) /\
    let self' := snd (reset reference_sim reference_base (Some 7%N) None crowded_env) in
    length (qpos (data self')) = length (qpos (data crowded_env)) /\
    skipn 13 (qpos (data self')) = skipn 13 (qpos (data crowded_env)).
Proof.
  do 2 eexists. split; [reflexivity|].
  eapply (@reset_writes_first_thirteen_only
            reference_bitgen reference_sim reference_base reference_forward
            crowded_env (Some 7%N) None).
  reflexivity.
Defined.

Lemma reset_without_seed_continues_stream_witness :
  exists obs1 info1 obs2 info2,
    fst (reset reference_sim reference_base (Some 7%N) None spinning_env) = Ok (obs1, info1) /\
    let self1 := snd (reset reference_sim reference_base (Some 7%N) None spinning_env) in
    fst (reset reference_sim reference_base None None self1) = Ok (obs2, info2) /\
    let self2 := snd (reset reference_sim reference_base None None self1) in
    let us := Generator.doubles reference_bitgen 6 7%N in
    object_qpos obs1
    = uniform_image (object_low spinning_env) (object_high spinning_env) (firstn 3 us) /\
    object_qpos obs2
    = uniform_image (object_low spinning_env) (object_high spinning_env) (skipn 3 us) /\
    np_random self2 = 13%N.
Proof.
  assert (H1 : exists obs1 info1,
             fst (reset reference_sim reference_base (Some 7%N) None spinning_env)
             = Ok (obs1, info1)) by (do 2 eexists; reflexivity).
  destruct H1 as (obs1 & info1 & H1).
  assert (Hnq : (13 <= length (qpos (data spinning_env)))%nat)
    by (change (13 <= 13)%nat; lia).
  destruct (@reset_twice_returns reference_bitgen reference_sim reference_base
              reference_forward spinning_env (Some 7%N) None None obs1 info1
              Hnq eq_refl eq_refl H1) as (obs2 & info2 & H2).
  exists obs1, info1, obs2, info2. split; [exact H1|]. split; [exact H2|].
  exact (@reset_without_seed_continues_stream
           reference_bitgen reference_sim reference_base reference_forward
           spinning_env 7%N None None obs1 obs2 info1 info2 eq_refl eq_refl H1 H2).
Defined.

Lemma get_observation_after_reset_witness :
  exists obs info,
    fst (reset reference_sim reference_base (Some 7%N) None spinning_env) = Ok (obs, info) /\
    let self' := snd (reset reference_sim reference_base (Some 7%N) None spinning_env) in
    get_observation self' = (Ok ([0; 0; 0; 0; 0; 0] ++ firstn 2 (object_qpos obs)), self') /\
    length (object_qpos obs) = 3%nat.
Proof.
  do 2 eexists. split; [reflexivity|].
  eapply (@get_observation_after_reset
            reference_bitgen reference_sim reference_base reference_forward
            spinning_env (Some 7%N) None).
  - reflexivity.
  - reflexivity.
  - reflexivity.
Defined.

Lemma configuration_is_invariant_witness :
  let self := snd (step reference_sim reference_base [2; -3; 0.5; 0; 0]
                        (snd (reset reference_sim reference_base (Some 7%N) None fresh_env))) in
  threshold_distance self = 0.01 /\
  observation_space self = spaces /\
  low (action_space self) = -1 /\
  high (action_space self) = 1 /\
  model self = from_xml_path reference_sim (scene_xml reference_base) /\
  exists obj_xy_range,
    object_low self = fst (set_object_range reference_base obj_xy_range) /\
    object_high self = snd (set_object_range reference_base obj_xy_range).
Proof.
  apply (@configuration_is_invariant reference_bitgen reference_sim reference_base).
  apply reach_step, reach_reset, reach_init.
Defined.
